(** * Feature engineering and alignment pipeline of the bid-forecast model

    Shallow embedding of [src/train.py] ([preprocesar_datos]),
    [src/inference.py] ([preprocesar_datos_inferencia],
    [preparar_datos_sql], [pipeline_inferencia_completo]) and of the
    day-window naming shared with [src/data_extraction.py].

    A pandas frame is a row count together with an ordered list of
    labelled columns; labels may repeat, as pandas allows.  Python
    strings are sequences of code points.  Exceptions are values of
    [result]; the in-place writes to the caller's frame are returned
    next to the result. *)

From Stdlib Require Import String Ascii.
From Stdlib Require Import List ZArith NArith QArith Bool Lia.
From Stdlib Require Import Sorted DecimalPos.
Import ListNotations.
Open Scope Z_scope.

(* ------------------------------------------------------------------ *)
(** ** Python strings *)

Module PyStr.

(** A Python [str]: a sequence of Unicode code points. *)
Definition pystr := list N.

(** An ASCII literal. *)
Definition py (s : string) : pystr :=
  map N_of_ascii (list_ascii_of_string s).

Fixpoint eqb (a b : pystr) : bool :=
  match a, b with
  | [], [] => true
  | x :: a', y :: b' => N.eqb x y && eqb a' b'
  | _, _ => false
  end.

(** [a < b] on Python strings: lexicographic on code points. *)
Fixpoint ltb (a b : pystr) : bool :=
  match a, b with
  | _, [] => false
  | [], _ :: _ => true
  | x :: a', y :: b' =>
      if N.ltb x y then true
      else if N.eqb x y then ltb a' b' else false
  end.

(** [str.isspace] on one code point. *)
Definition is_space (c : N) : bool :=
  ((9 <=? c) && (c <=? 13) || (28 <=? c) && (c <=? 32)
   || (c =? 133) || (c =? 160) || (c =? 5760)
   || (8192 <=? c) && (c <=? 8202)
   || (c =? 8232) || (c =? 8233) || (c =? 8239) || (c =? 8287)
   || (c =? 12288))%N.

Fixpoint lstrip (s : pystr) : pystr :=
  match s with
  | c :: s' => if is_space c then lstrip s' else s
  | [] => []
  end.

(** [s.strip()] *)
Definition strip (s : pystr) : pystr := rev (lstrip (rev (lstrip s))).

Fixpoint digits (d : Decimal.uint) : pystr :=
  match d with
  | Decimal.Nil => []
  | Decimal.D0 d => 48%N :: digits d
  | Decimal.D1 d => 49%N :: digits d
  | Decimal.D2 d => 50%N :: digits d
  | Decimal.D3 d => 51%N :: digits d
  | Decimal.D4 d => 52%N :: digits d
  | Decimal.D5 d => 53%N :: digits d
  | Decimal.D6 d => 54%N :: digits d
  | Decimal.D7 d => 55%N :: digits d
  | Decimal.D8 d => 56%N :: digits d
  | Decimal.D9 d => 57%N :: digits d
  end.

(** [str(z)] for a Python [int]. *)
Definition str_int (z : Z) : pystr :=
  match z with
  | Zneg p => 45%N :: digits (Pos.to_uint p)
  | _ => digits (N.to_uint (Z.to_N z))
  end.

(** [s in l] for a list of strings. *)
Definition mem (s : pystr) (l : list pystr) : bool := existsb (eqb s) l.

(** [a == b] for lists of strings. *)
Fixpoint list_eqb (a b : list pystr) : bool :=
  match a, b with
  | [], [] => true
  | x :: a', y :: b' => eqb x y && list_eqb a' b'
  | _, _ => false
  end.

End PyStr.
Import PyStr.

(* ------------------------------------------------------------------ *)
(** ** Exceptions *)

Inductive exn : Set :=
| ValueError | TypeError | AttributeError | KeyError | FileNotFoundError.

Inductive result (A : Type) : Type :=
| Ok (a : A)
| Raise (e : exn).
Arguments Ok {A} a.
Arguments Raise {A} e.

Definition bind {A B} (r : result A) (k : A -> result B) : result B :=
  match r with
  | Ok a => k a
  | Raise e => Raise e
  end.

Notation "x <- r ;; k" := (bind r (fun x => k))
  (at level 61, r at next level, right associativity).

Fixpoint sequence {A} (l : list (result A)) : result (list A) :=
  match l with
  | [] => Ok []
  | r :: l' => x <- r ;; xs <- sequence l' ;; Ok (x :: xs)
  end.

(* ------------------------------------------------------------------ *)
(** ** Cells *)

(** A numeric value: a finite one (a rational stands for the double),
    the two infinities, or NaN. *)
Inductive number : Set :=
| Fin (q : Q)
| PInf
| NInf
| NaN.

(** One cell of a frame.  [CNull] is [None] / [pd.NA]. *)
Inductive cell : Set :=
| CStr (s : pystr)
| CNum (x : number)
| CBool (b : bool)
| CNull.

(** What the model takes from the numeric libraries: the text-to-float
    parser behind [pd.to_numeric], [str] of a number, and rounding to two
    decimals of a finite double. *)
Class Numerics : Type := {
  floatify : pystr -> option number;
  repr_number : number -> pystr;
  round2 : Q -> Q
}.

Definition number_eqb (x y : number) : bool :=
  match x, y with
  | Fin p, Fin q => Qeq_bool p q
  | PInf, PInf | NInf, NInf | NaN, NaN => true
  | _, _ => false
  end.

(** Equality of cells as [DataFrame.duplicated] hashes them: missing
    values compare equal to themselves. *)
Definition cell_eqb (a b : cell) : bool :=
  match a, b with
  | CStr s, CStr t => PyStr.eqb s t
  | CNum x, CNum y => number_eqb x y
  | CBool x, CBool y => Bool.eqb x y
  | CNull, CNull => true
  | _, _ => false
  end.

Fixpoint key_eqb (a b : list cell) : bool :=
  match a, b with
  | [], [] => true
  | x :: a', y :: b' => cell_eqb x y && key_eqb a' b'
  | _, _ => false
  end.

Definition zero : number := Fin 0.

Section Cells.
Context {lib : Numerics}.

(** [str(v)], the element-wise step of [Series.astype(str)]. *)
Definition astype_str (v : cell) : pystr :=
  match v with
  | CStr s => s
  | CNum x => repr_number x
  | CBool true => py "True"
  | CBool false => py "False"
  | CNull => py "None"
  end.

(** [pd.to_numeric(..., errors="coerce")] on one value: what cannot be
    read as a number, the empty string and missing values give NaN. *)
Definition to_numeric (v : cell) : number :=
  match v with
  | CStr [] => NaN
  | CStr s => match floatify s with Some x => x | None => NaN end
  | CNum x => x
  | CBool true => Fin 1
  | CBool false => Fin 0
  | CNull => NaN
  end.

(** [.fillna(0.0)] *)
Definition fillna0 (x : number) : number :=
  match x with NaN => zero | _ => x end.

(** [pd.to_numeric(col, errors="coerce").fillna(0.0)], element-wise. *)
Definition coerce (v : cell) : cell := CNum (fillna0 (to_numeric v)).

(** [.astype("Int64")] on a numeric value: NaN becomes [pd.NA]; a
    value that is not a whole number cannot be cast safely. *)
Definition astype_Int64 (x : number) : result cell :=
  match x with
  | Fin q =>
      if (Qnum q mod Zpos (Qden q) =? 0)
      then Ok (CNum (Fin (inject_Z (Qnum q / Zpos (Qden q)))))
      else Raise TypeError
  | NaN => Ok CNull
  | PInf | NInf => Raise TypeError
  end.

(** [.astype(float).round(2)] on a numeric value. *)
Definition round_2 (x : number) : cell :=
  match x with
  | Fin q => CNum (Fin (round2 q))
  | _ => CNum x
  end.
End Cells.

(* ------------------------------------------------------------------ *)
(** ** Frames *)

Definition column : Type := pystr * list cell.

(** A [pandas.DataFrame]: the length of its index and its labelled
    columns in order. *)
Record DataFrame : Type := mkFrame {
  nrows : nat;
  cols : list column
}.


(** [list(df.columns)] *)
Definition columns (df : DataFrame) : list pystr := map fst (cols df).

(** [c in df.columns] *)
Definition contains (c : pystr) (df : DataFrame) : bool := mem c (columns df).

Definition has_label (c : pystr) (k : column) : bool := PyStr.eqb c (fst k).

(** What [df[c]] evaluates to: a Series when the label occurs once, a
    sub-frame of all the columns carrying it when it is repeated. *)
Inductive item : Type :=
| Series (v : list cell)
| SubFrame (ks : list column).

(** [df[c]] for one label. *)
Definition getitem (df : DataFrame) (c : pystr) : result item :=
  match filter (has_label c) (cols df) with
  | [] => Raise KeyError
  | [k] => Ok (Series (snd k))
  | ks => Ok (SubFrame ks)
  end.

(** [df[c] = v] with [v] a Series: every column labelled [c] takes the
    values; a new label is appended on the right. *)
Definition setitem (df : DataFrame) (c : pystr) (v : list cell) : DataFrame :=
  if contains c df
  then mkFrame (nrows df)
         (map (fun k => if has_label c k then (fst k, v) else k) (cols df))
  else mkFrame (nrows df) (cols df ++ [(c, v)]).

(** [df[c] = x] with [x] a scalar, broadcast over the index. *)
Definition setitem_scalar (df : DataFrame) (c : pystr) (x : cell) : DataFrame :=
  setitem df c (repeat x (nrows df)).

(** [df[keys]] for a list of labels: for each key in turn, every column
    carrying it; a key that labels no column raises. *)
Fixpoint getitem_list (df : DataFrame) (keys : list pystr)
  : result (list column) :=
  match keys with
  | [] => Ok []
  | c :: keys' =>
      match filter (has_label c) (cols df) with
      | [] => Raise KeyError
      | ks => rest <- getitem_list df keys' ;; Ok (ks ++ rest)
      end
  end.

(** [df.drop(columns=labels, errors="ignore")] *)
Definition drop (df : DataFrame) (labels : list pystr) : DataFrame :=
  mkFrame (nrows df) (filter (fun k => negb (mem (fst k) labels)) (cols df)).

(** [df.loc[:, ~df.columns.duplicated()]]: the first column of each
    label. *)
Fixpoint first_occurrences (seen : list pystr) (ks : list column)
  : list column :=
  match ks with
  | [] => []
  | k :: ks' =>
      if mem (fst k) seen then first_occurrences seen ks'
      else k :: first_occurrences (fst k :: seen) ks'
  end.

Definition drop_duplicate_columns (df : DataFrame) : DataFrame :=
  mkFrame (nrows df) (first_occurrences [] (cols df)).

Fixpoint unique_labels (l : list pystr) : bool :=
  match l with
  | [] => true
  | c :: l' => negb (mem c l') && unique_labels l'
  end.

Definition lookup (c : pystr) (ks : list column) : option (list cell) :=
  match find (has_label c) ks with
  | Some k => Some (snd k)
  | None => None
  end.

(** [df.reindex(columns=target, fill_value=x)]: refused on an axis with
    repeated labels; otherwise the target labels in the target order,
    each with the column it names or, when the frame has none, the fill
    value on every row. *)
Definition reindex (df : DataFrame) (target : list pystr) (x : cell)
  : result DataFrame :=
  if unique_labels (columns df)
  then Ok (mkFrame (nrows df)
             (map (fun c => match lookup c (cols df) with
                            | Some v => (c, v)
                            | None => (c, repeat x (nrows df))
                            end) target))
  else Raise ValueError.

(** Row [i] of a frame. *)
Definition row (ks : list column) (i : nat) : list cell :=
  map (fun k : column => nth i (snd k) CNull) ks.

Definition rows (df : DataFrame) : list (list cell) :=
  map (row (cols df)) (seq 0 (nrows df)).

(** Boolean-mask selection [v[mask]]. *)
Fixpoint compress {A} (mask : list bool) (v : list A) : list A :=
  match mask, v with
  | b :: mask', x :: v' => if b then x :: compress mask' v' else compress mask' v'
  | _, _ => []
  end.

(** [df[mask]] on rows. *)
Definition select_rows (df : DataFrame) (mask : list bool) : DataFrame :=
  mkFrame (length (filter (fun b => b) mask))
          (map (fun k : column => (fst k, compress mask (snd k))) (cols df)).

(** [duplicated(keep='last')] on a list of keys: a row is marked when a
    later row has an equal key. *)
Fixpoint duplicated_last (keys : list (list cell)) : list bool :=
  match keys with
  | [] => []
  | k :: keys' => existsb (key_eqb k) keys' :: duplicated_last keys'
  end.

(** [df.duplicated(subset=pk, keep='last')] *)
Definition duplicated (df : DataFrame) (subset : list pystr) : list bool :=
  duplicated_last
    (map (row (filter (fun k => mem (fst k) subset) (cols df)))
         (seq 0 (nrows df))).

(** Element-wise map over every column, [df.replace] / [df.where]. *)
Definition map_cells (f : cell -> cell) (df : DataFrame) : DataFrame :=
  mkFrame (nrows df) (map (fun k : column => (fst k, map f (snd k))) (cols df)).

(* ------------------------------------------------------------------ *)
(** ** The day window and the fixed column lists *)

(** Python's [range(lo, hi)]. *)
Definition range (lo hi : Z) : list Z :=
  map (fun i => lo + Z.of_nat i) (seq 0 (Z.to_nat (hi - lo))).

(** [dias = range(-15, dia_remate)] *)
Definition dias (dia_remate : Z) : list Z := range (-15) dia_remate.

(** [[f"{prefijo}{abs(d)}" for d in dias]] *)
Definition serie (prefijo : string) (dia_remate : Z) : list pystr :=
  map (fun d => py prefijo ++ str_int (Z.abs d)) (dias dia_remate).

Definition cols_ofertas := serie "OFERTAS".
Definition cols_cav := serie "CAV".
Definition cols_insp := serie "INSP".
Definition cols_mi := serie "MI".
Definition cols_vt := serie "VT".
Definition cols_vu := serie "VU".

Definition series_cols (dia_remate : Z) : list pystr :=
  cols_ofertas dia_remate ++ cols_cav dia_remate ++ cols_insp dia_remate
  ++ cols_mi dia_remate ++ cols_vt dia_remate ++ cols_vu dia_remate.

Definition categorical_vars : list pystr :=
  [py "TIPO"; py "MARCA"; py "MODELO"; py "COMB"; py "COLOR";
   py "CILINDESCRIPCION"; py "TRACCIONDESCRIPCION";
   py "UNIDADNEGOCIODESCRIPCION"; py "TRANSMISIONDESCRIPCION"].

Definition kpi_actual : list pystr :=
  [py "ACUM_DESCARGASCAV"; py "ACUM_DESCARGASINSPTOTALES"; py "ACUM_MI";
   py "ACUM_VISITAS_TOTALES"; py "ACUM_VISITAS_UNICAS"; py "ACUM_OFERTAS"].

(** The year column, "A", N with tilde (U+00D1), "O". *)
Definition ANIO : pystr := py "A" ++ [209%N] ++ py "O".

(** The vehicle-age column, with U with diaeresis (U+00DC). *)
Definition ANTIGUEDAD_VEHICULO : pystr :=
  py "ANTIG" ++ [220%N] ++ py "EDAD_VEHICULO".

Definition base_numeric : list pystr :=
  [ANIO; py "KILOMETRAJE"; py "MINIMO"; py "MONTOMULTAS"; py "VPCA";
   py "CANT_SIMILARES_EN_REMATE"; py "HHI_MARCA_REMATE";
   py "CONCENTRACION_TIPO_VPCA"; py "CANT_LOTES_EN_REMATE";
   ANTIGUEDAD_VEHICULO; py "PROYECCION_BI"].

Definition num_vars (dia_remate : Z) : list pystr :=
  base_numeric ++ kpi_actual ++ series_cols dia_remate.

Definition target_col : pystr := py "OFERTAS".
Definition id_cols : list pystr := [py "REMID"; py "PATENTE"; py "LOTEID"].
Definition OTRO : pystr := py "OTRO".

(* ------------------------------------------------------------------ *)
(** ** Categorical normalisation and one-hot encoding *)

Section Pipeline.
Context {lib : Numerics}.

(** [.astype(str).str.strip().replace('', 'OTRO')] on one value. *)
Definition normalizar_celda (v : cell) : cell :=
  match strip (astype_str v) with
  | [] => CStr OTRO
  | s => CStr s
  end.

(** The loop over [categorical_vars], writing into the frame it was
    given.  Returns the exception, if any, and the frame as the loop
    left it.  On a repeated label [data[col]] is a frame, which has no
    [.str]. *)
Fixpoint normalizar_categoricas (vars : list pystr) (data : DataFrame)
  : option exn * DataFrame :=
  match vars with
  | [] => (None, data)
  | col :: vars' =>
      if contains col data then
        match getitem data col with
        | Ok (Series v) =>
            normalizar_categoricas vars'
              (setitem data col (map normalizar_celda v))
        | Ok (SubFrame _) => (Some AttributeError, data)
        | Raise e => (Some e, data)
        end
      else
        normalizar_categoricas vars' (setitem_scalar data col (CStr OTRO))
  end.

(** Sorted, duplicate-free insertion of a category label. *)
Fixpoint insert_level (s : pystr) (l : list pystr) : list pystr :=
  match l with
  | [] => [s]
  | t :: l' =>
      if PyStr.ltb s t then s :: l
      else if PyStr.eqb s t then l
      else t :: insert_level s l'
  end.

(** The categories of a column, in sorted order.  The columns encoded
    here were written by [normalizar_categoricas], so every cell is
    text; any other cell counts as missing and belongs to no
    category. *)
Definition levels (v : list cell) : list pystr :=
  fold_right (fun c acc => match c with
                           | CStr s => insert_level s acc
                           | _ => acc
                           end) [] v.

Definition indicator (level : pystr) (c : cell) : cell :=
  match c with
  | CStr s => CBool (PyStr.eqb s level)
  | _ => CBool false
  end.

(** [_get_dummies_1d(..., drop_first=True)]: one indicator column
    [{prefix}_{level}] per category but the first. *)
Definition get_dummies_1d (prefix : pystr) (v : list cell) : list column :=
  map (fun level => (prefix ++ py "_" ++ level, map (indicator level) v))
      (tl (levels v)).

(** [pd.get_dummies(data, columns=columns, drop_first=True)]: the
    columns not encoded, then the indicators of each encoded column. *)
Definition get_dummies (data : DataFrame) (columns : list pystr)
  : result DataFrame :=
  data_to_encode <- getitem_list data columns ;;
  Ok (mkFrame (nrows data)
        (cols (drop data columns)
         ++ flat_map (fun k : column => get_dummies_1d (fst k) (snd k))
                     data_to_encode)).

(** The normalisation-and-encoding pass of both preprocessors, with
    the caller's frame as the pass leaves it. *)
Definition codificar (data : DataFrame) : result DataFrame * DataFrame :=
  match normalizar_categoricas categorical_vars data with
  | (Some e, data') => (Raise e, data')
  | (None, data') => (get_dummies data' categorical_vars, data')
  end.

(* ---------------------------------------------------------------- *)
(** ** Numeric coercion *)

(** [for col in vars: if col in df.columns: df[col] = f(df[col])] *)
Fixpoint for_present (f : item -> result (list cell))
         (vars : list pystr) (df : DataFrame) : result DataFrame :=
  match vars with
  | [] => Ok df
  | col :: vars' =>
      if contains col df then
        it <- getitem df col ;;
        v <- f it ;;
        for_present f vars' (setitem df col v)
      else for_present f vars' df
  end.

(** [pd.to_numeric(arg, errors="coerce").fillna(0.0)]; a frame is not
    an accepted argument. *)
Definition to_numeric_fillna (it : item) : result (list cell) :=
  match it with
  | Series v => Ok (map coerce v)
  | SubFrame _ => Raise TypeError
  end.

Definition convertir_a_numerico := for_present to_numeric_fillna.

(* ---------------------------------------------------------------- *)
(** ** Training-mode preprocessing, [train.preprocesar_datos] *)

(** [for c in candidate_features: if c not in X.columns: X[c] = 0.0] *)
Definition forzar_presencia (candidate_features : list pystr)
           (X : DataFrame) : DataFrame :=
  fold_left (fun X c => if contains c X then X
                        else setitem_scalar X c (CNum (Fin 0)))
            candidate_features X.

(** Everything after the one-hot encoding; works on frames of its
    own. *)
Definition construir_X_y (data_encoded : DataFrame) (dia_remate : Z)
  : result (DataFrame * list cell * list pystr) :=
  data_encoded <- convertir_a_numerico (num_vars dia_remate) data_encoded ;;
  if negb (contains target_col data_encoded) then Raise ValueError
  else
    it <- getitem data_encoded target_col ;;
    y <- to_numeric_fillna it ;;
    let candidate_features :=
      base_numeric ++ kpi_actual ++ series_cols dia_remate in
    let candidate_features :=
      filter (fun c => contains c data_encoded) candidate_features in
    let to_drop :=
      filter (fun c => contains c data_encoded) id_cols ++ [target_col] in
    let X :=
      drop data_encoded (filter (fun c => contains c data_encoded) to_drop) in
    let X := forzar_presencia candidate_features X in
    let ordered_numeric :=
      filter (fun c => contains c X) candidate_features in
    let other_cols :=
      filter (fun c => negb (mem c ordered_numeric)) (columns X) in
    ks <- getitem_list X (ordered_numeric ++ other_cols) ;;
    let X := mkFrame (nrows X) ks in
    Ok (X, y, columns X).

(** [preprocesar_datos(data, dia_remate)]: the returned triple
    [(X, y, columnas_features)] or the exception, paired with the
    caller's [data] as the call leaves it. *)
Definition preprocesar_datos (data : DataFrame) (dia_remate : Z)
  : result (DataFrame * list cell * list pystr) * DataFrame :=
  match codificar data with
  | (Raise e, data') => (Raise e, data')
  | (Ok data_encoded, data') => (construir_X_y data_encoded dia_remate, data')
  end.

(* ---------------------------------------------------------------- *)
(** ** Inference-mode preprocessing,
       [inference.preprocesar_datos_inferencia] *)

Definition alinear (data_encoded : DataFrame)
           (columnas_entrenamiento : list pystr) (dia_remate : Z)
  : result DataFrame :=
  data_encoded <- convertir_a_numerico (num_vars dia_remate) data_encoded ;;
  let data_encoded := drop_duplicate_columns data_encoded in
  reindex data_encoded columnas_entrenamiento (CNum (Fin 0)).

Definition preprocesar_datos_inferencia (data : DataFrame)
           (columnas_entrenamiento : list pystr) (dia_remate : Z)
  : result DataFrame * DataFrame :=
  match codificar data with
  | (Raise e, data') => (Raise e, data')
  | (Ok data_encoded, data') =>
      (alinear data_encoded columnas_entrenamiento dia_remate, data')
  end.

(* ---------------------------------------------------------------- *)
(** ** Upload preparation, [inference.preparar_datos_sql] *)

Definition cols_final : list pystr :=
  [py "REMID"; py "PATENTE"; py "LOTEID"; py "TIPO"; py "MARCA";
   py "MODELO"; ANIO; py "COMB"; py "KILOMETRAJE"; py "MINIMO";
   py "COLOR"; py "OFERTAS_PREDICHAS_RF"; py "DIA_REMATE"].

Definition text_cols : list pystr :=
  [py "PATENTE"; py "TIPO"; py "MARCA"; py "MODELO"; py "COMB"; py "COLOR"].

Definition int_cols : list pystr :=
  [py "REMID"; py "LOTEID"; ANIO; py "KILOMETRAJE"; py "DIA_REMATE"].

Definition float_cols : list pystr := [py "MINIMO"; py "OFERTAS_PREDICHAS_RF"].

Definition pk : list pystr :=
  [py "REMID"; py "PATENTE"; py "LOTEID"; py "DIA_REMATE"].

(** [df[c] = df[c].astype(str)]; on a repeated label both sides are
    frames and the assignment goes column by column. *)
Definition texto (df : DataFrame) (c : pystr) : DataFrame :=
  mkFrame (nrows df)
    (map (fun k : column =>
            if has_label c k
            then (fst k, map (fun v => CStr (astype_str v)) (snd k))
            else k) (cols df)).

(** [pd.to_numeric(arg, errors="coerce").astype("Int64")] *)
Definition to_Int64 (it : item) : result (list cell) :=
  match it with
  | Series v => sequence (map (fun x => astype_Int64 (to_numeric x)) v)
  | SubFrame _ => Raise TypeError
  end.

(** [pd.to_numeric(arg, errors="coerce").astype(float).round(2)] *)
Definition to_float_2 (it : item) : result (list cell) :=
  match it with
  | Series v => Ok (map (fun x => round_2 (to_numeric x)) v)
  | SubFrame _ => Raise TypeError
  end.

(** The typing steps, up to the primary-key check. *)
Definition tipificar (df : DataFrame) (dia_remate : Z) : result DataFrame :=
  let df_subir :=
    setitem_scalar df (py "DIA_REMATE") (CNum (Fin (inject_Z dia_remate))) in
  ks <- getitem_list df_subir
          (filter (fun c => contains c df_subir) cols_final) ;;
  let df_subir := mkFrame (nrows df_subir) ks in
  let df_subir :=
    fold_left (fun d c => if contains c d then texto d c else d)
              text_cols df_subir in
  df_subir <- for_present to_Int64 int_cols df_subir ;;
  for_present to_float_2 float_cols df_subir.


(** The block guarded by [cols_pk_presentes == pk]. *)
Definition eliminar_duplicados_pk (df_subir : DataFrame) : DataFrame :=
  let cols_pk_presentes := filter (fun c => contains c df_subir) pk in
  if list_eqb cols_pk_presentes pk then
    let dups_mask := duplicated df_subir pk in
    let n_dups := length (filter (fun b => b) dups_mask) in
    if (0 <? n_dups)%nat
    then select_rows df_subir (map negb dups_mask)
    else df_subir
  else df_subir.

(** [.replace([inf, -inf], pd.NA)] on one value. *)
Definition sin_infinitos (v : cell) : cell :=
  match v with
  | CNum PInf | CNum NInf => CNull
  | _ => v
  end.

(** [.where(pd.notnull(df), None)] on one value. *)
Definition sin_nulos (v : cell) : cell :=
  match v with
  | CNum NaN | CNull => CNull
  | _ => v
  end.

Definition preparar_datos_sql (df : DataFrame) (dia_remate : Z)
  : result DataFrame :=
  df_subir <- tipificar df dia_remate ;;
  let df_subir := eliminar_duplicados_pk df_subir in
  let df_subir := map_cells sin_infinitos df_subir in
  let df_subir := map_cells sin_nulos df_subir in
  Ok df_subir.

(* ---------------------------------------------------------------- *)
(** ** The inference pipeline, [inference.pipeline_inferencia_completo] *)

(** [modelo.predict], one prediction per row of the matrix. *)
Definition Regressor : Type := DataFrame -> list cell.

(** What a run leaves behind: the value returned or the exception, the
    caller's [data_raw], the frame written to the spreadsheet and the
    frame uploaded. *)
Record Corrida : Type := mkCorrida {
  retorno : result DataFrame;
  data_raw_final : DataFrame;
  excel : option DataFrame;
  sql : option DataFrame
}.

Definition OFERTAS_PREDICHAS_RF : pystr := py "OFERTAS_PREDICHAS_RF".

(** [bundle] is what [cargar_modelo] finds at [ruta_modelo], if
    anything. *)
Definition pipeline_inferencia_completo
           (bundle : option (Regressor * list pystr))
           (data_raw : DataFrame) (dia_remate : Z)
           (test subir_sql : bool) : Corrida :=
  match bundle with
  | None => mkCorrida (Raise FileNotFoundError) data_raw None None
  | Some (modelo, columnas_features) =>
      match preprocesar_datos_inferencia data_raw columnas_features
                                         dia_remate with
      | (Raise e, data_raw) => mkCorrida (Raise e) data_raw None None
      | (Ok data_procesada, data_raw) =>
          let predicciones := modelo data_procesada in
          let data_raw := setitem data_raw OFERTAS_PREDICHAS_RF predicciones in
          if subir_sql && negb test then
            match preparar_datos_sql data_raw dia_remate with
            | Ok df_sql =>
                mkCorrida (Ok data_raw) data_raw (Some data_raw) (Some df_sql)
            | Raise e =>
                mkCorrida (Raise e) data_raw (Some data_raw) None
            end
          else mkCorrida (Ok data_raw) data_raw (Some data_raw) None
      end
  end.

End Pipeline.

(* ------------------------------------------------------------------ *)
(** ** Query generation, [data_extraction.py] *)

(** [sep.join(items)] *)
Fixpoint join (sep : pystr) (items : list pystr) : pystr :=
  match items with
  | [] => []
  | [x] => x
  | x :: items' => x ++ sep ++ join sep items'
  end.

(** One element of the comprehension of [_generar_columnas_pivot_kpi];
    the I with acute accent of the day column is U+00CD. *)
Definition pivot_item (nombre_col_kpi prefijo : string) (d : Z) : pystr :=
  py "MAX(CASE WHEN D" ++ [205%N] ++ py "AS_REMATE = " ++ str_int d
  ++ py " THEN " ++ py nombre_col_kpi ++ py " END) AS "
  ++ py prefijo ++ str_int (Z.abs d).

Definition generar_columnas_pivot_kpi (nombre_col_kpi prefijo : string)
           (dias : list Z) : pystr :=
  join (py "," ++ [10%N] ++ py "        ")
       (map (pivot_item nombre_col_kpi prefijo) dias).

(** One element of the comprehension of [_generar_select_columnas]. *)
Definition select_item (alias_cte prefijo_col : string) (d : Z) : pystr :=
  py alias_cte ++ py "." ++ py prefijo_col ++ str_int (Z.abs d).

Definition generar_select_columnas (alias_cte prefijo_col : string)
           (dias : list Z) : pystr :=
  join (py "," ++ [10%N] ++ py "    ")
       (map (select_item alias_cte prefijo_col) dias).

(** The "MI" blocks of [generar_query_entrenamiento] and
    [generar_query_prediccion], both over [range(-15, dia_remate)]. *)
Definition cols_mi_sql (dia_remate : Z) : pystr :=
  generar_columnas_pivot_kpi "ACUM_MI" "MI" (dias dia_remate).

Definition cols_mi_select (dia_remate : Z) : pystr :=
  generar_select_columnas "mi" "MI" (dias dia_remate).

(* ------------------------------------------------------------------ *)
(** ** A numeric library for whole-number data

    The examples below run the pipeline on frames whose numbers are
    whole; on such data the parser reads runs of decimal digits, [str]
    prints the integer, and rounding to two decimals changes nothing. *)

Module Enteros.

Definition is_digit (c : N) : bool := ((48 <=? c) && (c <=? 57))%N.

Definition value (s : pystr) : Z :=
  fold_left (fun acc c => 10 * acc + (Z.of_N c - 48)) s 0.

Definition parse (s : pystr) : option number :=
  match s with
  | [] => None
  | _ => if forallb is_digit s then Some (Fin (inject_Z (value s))) else None
  end.

Definition repr (x : number) : pystr :=
  match x with
  | Fin q => str_int (Qnum q / Zpos (Qden q))
  | PInf => py "inf"
  | NInf => py "-inf"
  | NaN => py "nan"
  end.

Definition numerics : Numerics :=
  {| floatify := parse; repr_number := repr; round2 := fun q => q |}.

End Enteros.

(* ------------------------------------------------------------------ *)
(** ** Closed forms used by the statements *)

(** The label [c] names at most one column of [df]. *)
Definition at_most_once (c : pystr) (df : DataFrame) : Prop :=
  (length (filter (has_label c) (cols df)) <= 1)%nat.

(** [s.startswith(p)] *)
Fixpoint starts_with (p s : pystr) : bool :=
  match p, s with
  | [], _ => true
  | x :: p', y :: s' => N.eqb x y && starts_with p' s'
  | _ :: _, [] => false
  end.

(** The label has the shape [{attribute}_...] of an indicator column. *)
Definition is_indicator_label (l : pystr) : bool :=
  existsb (fun cat => starts_with (cat ++ py "_") l) categorical_vars.

Section ClosedForms.
Context {lib : Numerics}.

(** The frame the normalisation loop over [vars] leaves: the columns
    named in [vars] normalised in place, the attributes of [vars] that
    were absent appended as constant "OTRO" columns. *)
Definition normalizado_por (vars : list pystr) (data : DataFrame)
  : DataFrame :=
  mkFrame (nrows data)
    (map (fun k : column =>
            if mem (fst k) vars
            then (fst k, map normalizar_celda (snd k)) else k)
         (cols data)
     ++ map (fun c => (c, repeat (CStr OTRO) (nrows data)))
            (filter (fun c => negb (contains c data)) vars)).

Definition normalizado : DataFrame -> DataFrame :=
  normalizado_por categorical_vars.

(** The indicator columns of the encoding of [data]. *)
Definition indicadores (data : DataFrame) : list column :=
  flat_map (fun k : column => get_dummies_1d (fst k) (snd k))
    (flat_map (fun c => filter (has_label c) (cols (normalizado data)))
              categorical_vars).

(** The encoded frame: the columns of [data] that are not categorical
    attributes, then the indicators. *)
Definition codificado (data : DataFrame) : DataFrame :=
  mkFrame (nrows data)
    (filter (fun k : column => negb (mem (fst k) categorical_vars))
            (cols data)
     ++ indicadores data).

(** The frame the coercion loop over [vars] produces. *)
Definition numerico (vars : list pystr) (df : DataFrame) : DataFrame :=
  mkFrame (nrows df)
    (map (fun k : column =>
            if mem (fst k) vars then (fst k, map coerce (snd k)) else k)
         (cols df)).

(** The aligned frame in closed form. *)
Definition alineado (enc : DataFrame) (columnas_entrenamiento : list pystr)
           (dia_remate : Z) : DataFrame :=
  mkFrame (nrows enc)
    (map (fun l => match lookup l (cols (numerico (num_vars dia_remate) enc)) with
                   | Some v => (l, v)
                   | None => (l, repeat (CNum (Fin 0)) (nrows enc))
                   end) columnas_entrenamiento).





End ClosedForms.


(* ------------------------------------------------------------------ *)
(** ** Example record sets *)

Module Ejemplos.

Definition num (z : Z) : cell := CNum (Fin (inject_Z z)).
Definition txt (s : string) : cell := CStr (py s).

(** Two lots of one auction, with mileage and brand but no year and no
    windowed series. *)
Definition lotes : DataFrame :=
  mkFrame 2
    [(py "REMID", [num 1500; num 1500]);
     (py "PATENTE", [txt "ABCD12"; txt "EFGH34"]);
     (py "LOTEID", [num 1; num 2]);
     (py "MARCA", [txt "FORD"; txt " KIA "]);
     (py "KILOMETRAJE", [num 1000; num 2000]);
     (py "OFERTAS", [num 2; num 0])].

(** The same lots before the target is known. *)
Definition lotes_sin_target : DataFrame :=
  mkFrame 2
    [(py "REMID", [num 1500; num 1500]);
     (py "PATENTE", [txt "ABCD12"; txt "EFGH34"]);
     (py "LOTEID", [num 1; num 2]);
     (py "MARCA", [txt "FORD"; txt " KIA "]);
     (py "KILOMETRAJE", [txt "1000"; txt ""])].

(** A record set with a raw column whose name is that of an indicator
    the encoding generates. *)
Definition lotes_con_colision : DataFrame :=
  mkFrame 2
    [(py "TIPO", [txt "A"; txt "B"]);
     (py "TIPO_B", [num 7; num 8]);
     (py "OFERTAS", [num 2; num 0])].

(** Predictions with the lot of key (1500, ABCD12, 1) listed twice and
    non-finite values. *)
Definition predicciones : DataFrame :=
  mkFrame 3
    [(py "REMID", [num 1500; num 1500; num 1500]);
     (py "PATENTE", [txt "ABCD12"; txt "EFGH34"; txt "ABCD12"]);
     (py "LOTEID", [num 1; num 2; num 1]);
     (py "MINIMO", [CNum PInf; CNum NaN; num 5]);
     (py "OFERTAS_PREDICHAS_RF", [num 3; num 4; CNum NInf])].

(** A regressor that predicts one bid for every row. *)
Definition uno_por_fila : Regressor :=
  fun X => repeat (num 1) (nrows X).

End Ejemplos.

(* ------------------------------------------------------------------ *)
(** ** Warehouse access, [utils.ejecutar_consulta_sql] and
       [data_extraction.extraer_datos_*] *)

(** [pd.DataFrame(resultados_lista, columns=columnas)] on a list of
    rows: no row gives the empty frame with the given columns; otherwise
    the rows are padded with [None] to the longest one, and that width
    has to be the number of column names. *)
Definition DataFrame_de_filas (columnas : list pystr)
           (resultados_lista : list (list cell)) : result DataFrame :=
  match resultados_lista with
  | [] => Ok (mkFrame 0 (map (fun c => (c, [])) columnas))
  | _ =>
      let ancho := fold_right Nat.max 0%nat (map (@length cell) resultados_lista) in
      if (ancho =? length columnas)%nat
      then Ok (mkFrame (length resultados_lista)
                 (map (fun i => (nth i columnas [],
                                 map (fun fila => nth i fila CNull)
                                     resultados_lista))
                      (seq 0 ancho)))
      else Raise ValueError
  end.

(** What the cursor hands back for a query: the fetched rows and the
    column names of [cursor.description]. *)
Definition Cursor : Type := pystr -> list (list cell) * list pystr.

Definition ejecutar_consulta_sql (cursor : Cursor) (query : pystr)
  : result DataFrame :=
  let (resultados, columnas) := cursor query in
  DataFrame_de_filas columnas resultados.

(** [data.replace(r"^\s*$", np.nan, regex=True)] on one value: a text
    made of whitespace only (the empty text too) becomes NaN. *)
Definition limpiar_celda (v : cell) : cell :=
  match v with
  | CStr s => if forallb is_space s then CNum NaN else v
  | _ => v
  end.

(** The cleaning step of [extraer_datos_entrenamiento] and
    [extraer_datos_prediccion]. *)
Definition limpiar_strings_vacios (data : DataFrame) : DataFrame :=
  map_cells limpiar_celda data.

(** [extraer_datos_*] once the query text is generated. *)
Definition extraer_datos (cursor : Cursor) (query : pystr) : result DataFrame :=
  data <- ejecutar_consulta_sql cursor query ;;
  Ok (limpiar_strings_vacios data).

(* ------------------------------------------------------------------ *)
(** ** Result sinks *)

(** [ruta_archivo] of [guardar_predicciones_excel]. *)
Definition ruta_excel (dia_remate : Z) (fecha_subasta : pystr) (test : bool)
  : pystr :=
  let postfix := if test then py "_test" else py "" in
  let ruta_directorio := py "Proyecciones/Subasta_" ++ fecha_subasta in
  ruta_directorio ++ py "/Proyecciones_" ++ str_int dia_remate ++ postfix
  ++ py ".xlsx".

(** The spreadsheets on disk, by path. *)
Definition Archivos : Type := pystr -> option DataFrame.

(** [guardar_predicciones_excel(df, dia_remate, fecha_subasta, test)]:
    the path returned and the disk after [df.to_excel]. *)
Definition guardar_predicciones_excel (disco : Archivos) (df : DataFrame)
           (dia_remate : Z) (fecha_subasta : pystr) (test : bool)
  : pystr * Archivos :=
  let ruta_archivo := ruta_excel dia_remate fecha_subasta test in
  (ruta_archivo,
   fun ruta => if PyStr.eqb ruta ruta_archivo then Some df else disco ruta).

(** [placeholders] of [subir_dataframe_sql]. *)
Definition placeholders (columnas : list pystr) : pystr :=
  join (py ",") (repeat (py "?") (length columnas)).

(** [cols_sql] of [subir_dataframe_sql]. *)
Definition cols_sql (columnas : list pystr) : pystr :=
  join (py ",") (map (fun c => py "[" ++ c ++ py "]") columnas).

Definition insert_sql (schema tabla_destino : pystr) (columnas : list pystr)
  : pystr :=
  py "INSERT INTO " ++ schema ++ py "." ++ tabla_destino ++ py " ("
  ++ cols_sql columnas ++ py ") VALUES (" ++ placeholders columnas ++ py ")".

(** [subir_dataframe_sql(df, tabla_destino, schema)]: the statement and
    the value tuples handed to [cursor.executemany]. *)
Definition subir_dataframe_sql (df : DataFrame) (tabla_destino schema : pystr)
  : pystr * list (list cell) :=
  let columnas := columns df in
  let valores := rows df in
  (insert_sql schema tabla_destino columnas, valores).

(* ------------------------------------------------------------------ *)
(** ** The model bundle on disk, [utils.guardar_modelo] and
       [utils.cargar_modelo] *)

(** [modelo_data], the dictionary that [joblib] dumps and loads. *)
Record Bundle : Type := mkBundle {
  modelo : Regressor;
  columnas_features : list pystr
}.

(** The bundles on disk, by path. *)
Definition Disco : Type := pystr -> option Bundle.

Definition guardar_modelo (disco : Disco) (modelo : Regressor)
           (columnas_features : list pystr) (ruta_modelo : pystr) : Disco :=
  let modelo_data := mkBundle modelo columnas_features in
  fun ruta => if PyStr.eqb ruta ruta_modelo then Some modelo_data
              else disco ruta.

Definition cargar_modelo (disco : Disco) (ruta_modelo : pystr)
  : result Bundle :=
  match disco ruta_modelo with
  | None => Raise FileNotFoundError
  | Some modelo_data => Ok modelo_data
  end.

Section Orquestacion.
Context {lib : Numerics}.

(** [subir_predicciones_sql(df, dia_remate, tabla, schema)] *)
Definition subir_predicciones_sql (df : DataFrame) (dia_remate : Z)
           (tabla schema : pystr) : result (pystr * list (list cell)) :=
  df_sql <- preparar_datos_sql df dia_remate ;;
  Ok (subir_dataframe_sql df_sql tabla schema).

(** [pipeline_inferencia_completo] reading its bundle from disk. *)
Definition pipeline_inferencia_desde_disco (disco : Disco)
           (data_raw : DataFrame) (dia_remate : Z) (test subir_sql : bool)
           (ruta_modelo : pystr) : Corrida :=
  pipeline_inferencia_completo
    (match cargar_modelo disco ruta_modelo with
     | Ok modelo_data =>
         Some (modelo modelo_data, columnas_features modelo_data)
     | Raise _ => None
     end)
    data_raw dia_remate test subir_sql.

(** The scikit-learn side of training: [entrenar_modelo] (split,
    hyper-parameter search, fit) and [evaluar_modelo] (importances and
    their plot) are taken as given; either may raise. *)
Variable Metricas Importancias : Type.
Variable entrenar_modelo :
  DataFrame -> list cell -> result (Regressor * Metricas).
Variable evaluar_modelo :
  Regressor -> DataFrame -> list pystr -> result Importancias.

(** The dictionary returned by [entrenar_pipeline_completo]. *)
Record Entrenamiento : Type := mkEntrenamiento {
  e_modelo : Regressor;
  e_columnas_features : list pystr;
  e_metricas : Metricas;
  e_importancias : Importancias
}.

(** [entrenar_pipeline_completo(data, dia_remate, ruta_modelo)]: the
    value returned or the exception, the caller's [data] and the disk as
    the call leaves them. *)
Definition entrenar_pipeline_completo (disco : Disco) (data : DataFrame)
           (dia_remate : Z) (ruta_modelo : pystr)
  : result Entrenamiento * DataFrame * Disco :=
  match preprocesar_datos data dia_remate with
  | (Raise e, data) => (Raise e, data, disco)
  | (Ok (X, y, columnas_features), data) =>
      match entrenar_modelo X y with
      | Raise e => (Raise e, data, disco)
      | Ok (modelo, metricas) =>
          match evaluar_modelo modelo X columnas_features with
          | Raise e => (Raise e, data, disco)
          | Ok importancias =>
              (Ok (mkEntrenamiento modelo columnas_features metricas
                                   importancias),
               data,
               guardar_modelo disco modelo columnas_features ruta_modelo)
          end
      end
  end.
End Orquestacion.

(* ------------------------------------------------------------------ *)
(** * Properties *)

(** ** Strings *)

Lemma eqb_eq (a b : pystr) : PyStr.eqb a b = true <-> a = b.
Proof.
  revert b; induction a as [|x a IH]; intros [|y b]; simpl;
    try (split; [discriminate | congruence]); try tauto.
  rewrite andb_true_iff, N.eqb_eq, IH. split.
  - intros [-> ->]; reflexivity.
  - intros E; injection E; auto.
Qed.

Lemma eqb_refl (a : pystr) : PyStr.eqb a a = true.
Proof. apply eqb_eq; reflexivity. Qed.

Lemma eqb_neq (a b : pystr) : PyStr.eqb a b = false <-> a <> b.
Proof.
  rewrite <- eqb_eq. destruct (PyStr.eqb a b); split; congruence.
Qed.

Lemma eqb_sym (a b : pystr) : PyStr.eqb a b = PyStr.eqb b a.
Proof.
  destruct (PyStr.eqb a b) eqn:E.
  - apply eqb_eq in E; subst; symmetry; apply eqb_refl.
  - destruct (PyStr.eqb b a) eqn:E'; auto.
    apply eqb_eq in E'; subst. rewrite eqb_refl in E; discriminate.
Qed.

Lemma mem_In (s : pystr) (l : list pystr) : mem s l = true <-> In s l.
Proof.
  unfold mem. rewrite existsb_exists. split.
  - intros (x & Hx & E). apply eqb_eq in E; subst; auto.
  - intros H. exists s; split; auto using eqb_refl.
Qed.

Lemma mem_not_In (s : pystr) (l : list pystr) : mem s l = false <-> ~ In s l.
Proof.
  rewrite <- mem_In. destruct (mem s l); split; congruence.
Qed.

Lemma lstrip_fixed (s : pystr) :
  (forall c r, s = c :: r -> is_space c = false) -> lstrip s = s.
Proof.
  destruct s as [|c r]; simpl; auto.
  intros H. rewrite (H c r eq_refl). reflexivity.
Qed.

Lemma lstrip_head (s : pystr) c r :
  lstrip s = c :: r -> is_space c = false.
Proof.
  induction s as [|x s IH]; simpl; [discriminate|].
  destruct (is_space x) eqn:E; auto.
  intros H; injection H; intros; subst; assumption.
Qed.

Lemma lstrip_suffix (s : pystr) : exists ws, s = ws ++ lstrip s.
Proof.
  induction s as [|x s [ws IH]]; simpl.
  - exists []; reflexivity.
  - destruct (is_space x).
    + exists (x :: ws). simpl. congruence.
    + exists []. reflexivity.
Qed.

Lemma strip_idempotent (s : pystr) : strip (strip s) = strip s.
Proof.
  unfold strip.
  set (t := lstrip s). set (u := lstrip (rev t)).
  assert (Hu : forall c r, u = c :: r -> is_space c = false)
    by (intros c r; apply lstrip_head).
  assert (Ht : forall c r, t = c :: r -> is_space c = false)
    by (intros c r; apply lstrip_head).
  destruct (lstrip_suffix (rev t)) as [ws Hws]. fold u in Hws.
  assert (Et : t = rev u ++ rev ws).
  { rewrite <- rev_app_distr, <- Hws, rev_involutive. reflexivity. }
  assert (E1 : lstrip (rev u) = rev u).
  { apply lstrip_fixed. intros c r Hc. rewrite Hc in Et. simpl in Et.
    eapply Ht; eassumption. }
  rewrite E1, rev_involutive. rewrite (lstrip_fixed u Hu). reflexivity.
Qed.

(** ** The day window *)

Lemma range_length (lo hi : Z) : length (range lo hi) = Z.to_nat (hi - lo).
Proof. unfold range. rewrite length_map, length_seq. reflexivity. Qed.

Lemma range_In (lo hi d : Z) : In d (range lo hi) <-> lo <= d < hi.
Proof.
  unfold range. rewrite in_map_iff. split.
  - intros (i & <- & Hi). apply in_seq in Hi. lia.
  - intros H. exists (Z.to_nat (d - lo)). split; [lia|].
    apply in_seq. lia.
Qed.

Lemma map_seq_sorted (f : nat -> Z) :
  (forall i j, (i < j)%nat -> f i < f j) ->
  forall n s, StronglySorted Z.lt (map f (seq s n)).
Proof.
  intros Hf n; induction n as [|n IH]; intros s; simpl; constructor.
  - apply IH.
  - apply Forall_forall. intros x Hx. apply in_map_iff in Hx.
    destruct Hx as (j & <- & Hj). apply in_seq in Hj. apply Hf. lia.
Qed.

Lemma range_sorted (lo hi : Z) : StronglySorted Z.lt (range lo hi).
Proof. unfold range. apply map_seq_sorted. intros; lia. Qed.

(** C4. The offsets of the window are [range(-15, c)]: none when
    [c <= -15], otherwise [c - (-15)] of them; they are strictly
    increasing and are exactly the integers [d] with [-15 <= d < c]. Every
    series column is its prefix followed by [abs(d)] in decimal, the
    SELECT list and the pivot aliases of the generated query name the
    same columns over the same offsets, and for [c = -2] there are 13
    offsets and the MI columns are MI15 ... MI3. *)
Theorem ventana_dias (c : Z) :
  (c <= -15 -> dias c = []) /\
  (c > -15 -> Z.of_nat (length (dias c)) = c - (-15)) /\
  StronglySorted Z.lt (dias c) /\
  (forall d, In d (dias c) <-> -15 <= d < c) /\
  (forall prefijo,
      serie prefijo c
      = map (fun d => py prefijo ++ str_int (Z.abs d)) (dias c)) /\
  (forall alias prefijo,
      generar_select_columnas alias prefijo (dias c)
      = join (py "," ++ [10%N] ++ py "    ")
             (map (fun nombre => py alias ++ py "." ++ nombre)
                  (serie prefijo c))) /\
  (forall kpi prefijo d,
      exists sql, pivot_item kpi prefijo d
                  = sql ++ py " AS " ++ py prefijo ++ str_int (Z.abs d)) /\
  dias (-2) = [-15; -14; -13; -12; -11; -10; -9; -8; -7; -6; -5; -4; -3] /\
  cols_mi (-2)
  = [py "MI15"; py "MI14"; py "MI13"; py "MI12"; py "MI11"; py "MI10";
     py "MI9"; py "MI8"; py "MI7"; py "MI6"; py "MI5"; py "MI4"; py "MI3"].
Proof.
  split; [|split; [|split; [|split; [|split; [|split; [|split; [|split]]]]]]].
  - intros H. unfold dias, range.
    replace (Z.to_nat (c - -15)) with 0%nat by lia. reflexivity.
  - intros H. unfold dias. rewrite range_length. lia.
  - apply range_sorted.
  - intros d. apply range_In.
  - reflexivity.
  - intros alias prefijo. unfold generar_select_columnas, serie.
    rewrite map_map. reflexivity.
  - intros kpi prefijo d.
    exists (py "MAX(CASE WHEN D" ++ [205%N] ++ py "AS_REMATE = " ++ str_int d
            ++ py " THEN " ++ py kpi ++ py " END)").
    unfold pivot_item. repeat rewrite <- app_assoc. reflexivity.
  - reflexivity.
  - reflexivity.
Qed.

Lemma ventana_dias_witness :
  dias (-20) = [] /\ Z.of_nat (length (dias (-2))) = -2 - (-15).
Proof.
  split.
  - apply (proj1 (ventana_dias (-20))). lia.
  - apply (proj1 (proj2 (ventana_dias (-2)))). lia.
Defined.

(** ** Frames *)

Lemma has_label_eq (c : pystr) (k : column) :
  has_label c k = true <-> fst k = c.
Proof. unfold has_label. rewrite eqb_eq. split; congruence. Qed.

Lemma mem_cons (s c : pystr) (l : list pystr) :
  mem s (c :: l) = PyStr.eqb s c || mem s l.
Proof. reflexivity. Qed.

Lemma contains_In (c : pystr) (df : DataFrame) :
  contains c df = true <-> In c (columns df).
Proof. apply mem_In. Qed.

Lemma contains_filter (c : pystr) (df : DataFrame) :
  contains c df = true <-> filter (has_label c) (cols df) <> [].
Proof.
  rewrite contains_In. unfold columns. split.
  - intros H. apply in_map_iff in H. destruct H as (k & <- & Hk).
    intros E. assert (Hin : In k (filter (has_label (fst k)) (cols df))).
    { apply filter_In. split; auto. apply has_label_eq; reflexivity. }
    rewrite E in Hin. destruct Hin.
  - intros H. destruct (filter (has_label c) (cols df)) as [|k ks] eqn:E;
      [congruence|].
    assert (Hin : In k (filter (has_label c) (cols df)))
      by (rewrite E; left; reflexivity).
    apply filter_In in Hin. destruct Hin as [Hin Hl].
    apply has_label_eq in Hl. subst c. apply in_map. assumption.
Qed.

Lemma contains_false_filter (c : pystr) (df : DataFrame) :
  contains c df = false -> filter (has_label c) (cols df) = [].
Proof.
  intros H. destruct (filter (has_label c) (cols df)) eqn:E; auto.
  assert (contains c df = true) by (apply contains_filter; congruence).
  congruence.
Qed.

(** A label present at most once is read as a Series. *)
Lemma getitem_series (df : DataFrame) (c : pystr) :
  contains c df = true -> at_most_once c df ->
  exists k, filter (has_label c) (cols df) = [k] /\
            getitem df c = Ok (Series (snd k)).
Proof.
  intros Hc Hu. apply contains_filter in Hc. unfold at_most_once in Hu.
  unfold getitem. destruct (filter (has_label c) (cols df)) as [|k [|k' ks]];
    simpl in *; try congruence; try lia.
  exists k; auto.
Qed.

Lemma NoDup_at_most_once (df : DataFrame) (c : pystr) :
  NoDup (columns df) -> at_most_once c df.
Proof.
  unfold at_most_once, columns. induction (cols df) as [|k ks IH]; simpl; auto.
  intros H. inversion H as [|? ? Hn Hd]; subst.
  destruct (has_label c k) eqn:E; [|auto].
  apply has_label_eq in E. simpl.
  assert (Hf : filter (has_label c) ks = []).
  { apply (contains_false_filter c (mkFrame 0 ks)).
    apply mem_not_In. subst c. exact Hn. }
  rewrite Hf. simpl. lia.
Qed.

Lemma filter_label_map (c : pystr) (g : column -> column) (l : list column) :
  (forall k, fst (g k) = fst k) ->
  filter (has_label c) (map g l) = map g (filter (has_label c) l).
Proof.
  intros Hg. induction l as [|k l IH]; simpl; auto.
  assert (E : has_label c (g k) = has_label c k)
    by (unfold has_label; rewrite Hg; reflexivity).
  rewrite E. destruct (has_label c k); simpl; rewrite IH; reflexivity.
Qed.

Lemma columns_map (g : column -> column) (n m : nat) (l : list column) :
  (forall k, fst (g k) = fst k) ->
  columns (mkFrame n (map g l)) = columns (mkFrame m l).
Proof.
  intros Hg. unfold columns; simpl. rewrite map_map.
  apply map_ext. exact Hg.
Qed.

Lemma columns_setitem_present (df : DataFrame) (c : pystr) (v : list cell) :
  contains c df = true -> columns (setitem df c v) = columns df.
Proof.
  intros H. unfold setitem. rewrite H.
  destruct df as [n l]. apply columns_map.
  intros k. simpl. destruct (has_label c k); reflexivity.
Qed.

Lemma nrows_setitem (df : DataFrame) (c : pystr) (v : list cell) :
  nrows (setitem df c v) = nrows df.
Proof. unfold setitem. destruct (contains c df); reflexivity. Qed.

Lemma contains_columns (c : pystr) (df df' : DataFrame) :
  columns df = columns df' -> contains c df = contains c df'.
Proof. unfold contains. intros ->. reflexivity. Qed.

Lemma count_label_columns (c : pystr) (l l' : list column) :
  map fst l = map fst l' ->
  length (filter (has_label c) l) = length (filter (has_label c) l').
Proof.
  revert l'. induction l as [|k l IH]; intros [|k' l'] E; simpl in *;
    try discriminate; auto.
  injection E as E1 E2.
  assert (E : has_label c k = has_label c k')
    by (unfold has_label; rewrite E1; reflexivity).
  rewrite E. specialize (IH l' E2).
  destruct (has_label c k'); simpl; lia.
Qed.

Lemma at_most_once_columns (c : pystr) (df df' : DataFrame) :
  columns df = columns df' -> at_most_once c df -> at_most_once c df'.
Proof.
  unfold at_most_once, columns. intros E.
  rewrite (count_label_columns c _ _ E). auto.
Qed.

Section Normalizacion.
Context {lib : Numerics}.

(** The normalisation loop never raises when each attribute labels at
    most one column, and leaves the frame in the closed form. *)
Lemma normalizar_categoricas_spec (vars : list pystr) :
  NoDup vars ->
  forall data,
    (forall c, In c vars -> at_most_once c data) ->
    normalizar_categoricas vars data = (None, normalizado_por vars data).
Proof.
  induction 1 as [|col vars' Hnin Hnd IH]; intros data Hu.
  - unfold normalizado_por. simpl. rewrite map_id, app_nil_r.
    destruct data; reflexivity.
  - simpl. destruct (contains col data) eqn:Hc.
    + destruct (getitem_series data col Hc (Hu col (or_introl eq_refl)))
        as (k0 & Hk0 & ->).
      assert (Hcols : columns (setitem data col (map normalizar_celda (snd k0)))
                      = columns data)
        by (apply columns_setitem_present; assumption).
      rewrite IH.
      2:{ intros c Hin. eapply at_most_once_columns; [symmetry; exact Hcols|].
          apply Hu. right; assumption. }
      unfold normalizado_por. rewrite nrows_setitem. f_equal. f_equal. f_equal.
      * unfold setitem. rewrite Hc. cbn [cols]. rewrite map_map.
        apply map_ext_in. intros k Hk.
        destruct (has_label col k) eqn:Hl.
        -- assert (Hin : In k (filter (has_label col) (cols data)))
             by (apply filter_In; auto).
           rewrite Hk0 in Hin. destruct Hin as [<-|[]].
           apply has_label_eq in Hl. cbn [fst snd]. rewrite Hl.
           rewrite (proj2 (mem_not_In col vars') Hnin).
           rewrite mem_cons, eqb_refl. reflexivity.
        -- rewrite mem_cons. unfold has_label in Hl.
           rewrite eqb_sym, Hl. reflexivity.
      * simpl. rewrite Hc. simpl. f_equal.
        apply filter_ext. intros c.
        rewrite (contains_columns c _ _ Hcols). reflexivity.
    + unfold setitem_scalar, setitem. rewrite Hc.
      rewrite IH.
      2:{ intros c Hin. specialize (Hu c (or_intror Hin)).
          unfold at_most_once in *. simpl. rewrite filter_app. simpl.
          assert (Hne : has_label c (col, repeat (CStr OTRO) (nrows data))
                        = false).
          { unfold has_label. simpl. apply eqb_neq. intros ->. contradiction. }
          rewrite Hne, app_nil_r. assumption. }
      unfold normalizado_por. simpl. f_equal.
      rewrite map_app. simpl. rewrite (proj2 (mem_not_In col vars') Hnin).
      rewrite Hc. simpl. rewrite <- app_assoc. simpl. f_equal. f_equal.
      * apply map_ext_in. intros k Hk.
        assert (Hne : PyStr.eqb (fst k) col = false).
        { apply eqb_neq. intros E.
          assert (contains col data = true).
          { apply contains_In. rewrite <- E. apply in_map. assumption. }
          congruence. }
        rewrite Hne. reflexivity.
      * f_equal. f_equal. apply filter_ext_in. intros c Hin.
        unfold contains, columns. simpl. rewrite map_app. unfold mem.
        rewrite existsb_app. simpl.
        assert (Hne : PyStr.eqb c col = false).
        { apply eqb_neq. intros ->. contradiction. }
        rewrite Hne. rewrite !orb_false_r. reflexivity.
Qed.
End Normalizacion.

(** ** Column names *)

Lemma starts_with_app (p s : pystr) : starts_with p (p ++ s) = true.
Proof.
  induction p as [|x p IH]; simpl; auto. rewrite N.eqb_refl. exact IH.
Qed.

Lemma digits_nonempty (d : Decimal.uint) : d <> Decimal.Nil -> digits d <> [].
Proof. destruct d; simpl; congruence. Qed.

Lemma str_int_abs_nonempty (d : Z) : str_int (Z.abs d) <> [].
Proof.
  destruct d as [|p|p]; simpl; try discriminate;
    apply digits_nonempty, DecimalPos.Unsigned.to_uint_nonnil.
Qed.

(** A series column is one of the six prefixes followed by at least one
    digit. *)
Lemma series_cols_shape (c : Z) (l : pystr) :
  In l (series_cols c) ->
  exists sfx, sfx <> [] /\
    (l = py "OFERTAS" ++ sfx \/ l = py "CAV" ++ sfx \/ l = py "INSP" ++ sfx
     \/ l = py "MI" ++ sfx \/ l = py "VT" ++ sfx \/ l = py "VU" ++ sfx).
Proof.
  unfold series_cols, cols_ofertas, cols_cav, cols_insp, cols_mi, cols_vt,
    cols_vu, serie.
  rewrite !in_app_iff, !in_map_iff.
  intros H.
  repeat (destruct H as [H|H]);
    destruct H as (d & <- & _); exists (str_int (Z.abs d));
    (split; [apply str_int_abs_nonempty | tauto]).
Qed.

(** No numeric column has the shape of an indicator label. *)
Lemma num_vars_not_indicator (c : Z) (l : pystr) :
  In l (num_vars c) -> is_indicator_label l = false.
Proof.
  unfold num_vars. rewrite !in_app_iff. intros [H|[H|H]].
  - unfold base_numeric in H. simpl in H.
    repeat (destruct H as [<-|H]; [reflexivity|]). destruct H.
  - unfold kpi_actual in H. simpl in H.
    repeat (destruct H as [<-|H]; [reflexivity|]). destruct H.
  - apply series_cols_shape in H.
    destruct H as (sfx & _ & [-> | [-> | [-> | [-> | [-> | ->]]]]]); reflexivity.
Qed.

(** Nor is any of them a categorical attribute, the target or an
    identifier. *)
Lemma num_vars_not_reserved (c : Z) (l : pystr) :
  In l (num_vars c) ->
  mem l categorical_vars = false /\ l <> target_col /\ ~ In l id_cols.
Proof.
  unfold num_vars. rewrite !in_app_iff. intros [H|[H|H]].
  - unfold base_numeric in H. simpl in H.
    repeat (destruct H as [<-|H];
            [split; [reflexivity|split; [discriminate|]];
             simpl; intuition discriminate|]).
    destruct H.
  - unfold kpi_actual in H. simpl in H.
    repeat (destruct H as [<-|H];
            [split; [reflexivity|split; [discriminate|]];
             simpl; intuition discriminate|]).
    destruct H.
  - apply series_cols_shape in H.
    destruct H as (sfx & Hs & H).
    assert (Ht : py "OFERTAS" ++ sfx <> target_col).
    { intros E. apply Hs. apply (app_inv_head (py "OFERTAS")).
      rewrite app_nil_r. exact E. }
    destruct H as [-> | [-> | [-> | [-> | [-> | ->]]]]];
      (split; [reflexivity|split; [try discriminate; assumption|]]);
      simpl; intuition discriminate.
Qed.

(** ** Encoding *)

Lemma getitem_list_ok (X : DataFrame) (keys : list pystr) :
  (forall c, In c keys -> contains c X = true) ->
  getitem_list X keys
  = Ok (flat_map (fun c => filter (has_label c) (cols X)) keys).
Proof.
  induction keys as [|c keys IH]; intros H; simpl; auto.
  assert (Hc : filter (has_label c) (cols X) <> [])
    by (apply contains_filter, H; left; reflexivity).
  destruct (filter (has_label c) (cols X)) as [|k ks]; [congruence|].
  rewrite IH by (intros; apply H; right; assumption). reflexivity.
Qed.

Lemma filter_nil {A} (f : A -> bool) (l : list A) :
  (forall x, In x l -> f x = false) -> filter f l = [].
Proof.
  induction l as [|x l IH]; intros H; simpl; auto.
  rewrite (H x (or_introl eq_refl)). apply IH. intros; apply H; right; auto.
Qed.

Section Codificacion.
Context {lib : Numerics}.

Lemma columns_normalizado_por (vars : list pystr) (data : DataFrame) :
  columns (normalizado_por vars data)
  = columns data ++ filter (fun c => negb (contains c data)) vars.
Proof.
  unfold normalizado_por, columns. simpl. rewrite map_app, !map_map. f_equal.
  - apply map_ext. intros k. destruct (mem (fst k) vars); reflexivity.
  - simpl. apply map_id.
Qed.

Lemma contains_normalizado (c : pystr) (data : DataFrame) :
  In c categorical_vars -> contains c (normalizado data) = true.
Proof.
  intros H. apply contains_In. unfold normalizado.
  rewrite columns_normalizado_por. apply in_app_iff.
  destruct (contains c data) eqn:E.
  - left. apply contains_In. assumption.
  - right. apply filter_In. rewrite E. auto.
Qed.

Lemma drop_normalizado (data : DataFrame) :
  cols (drop (normalizado data) categorical_vars)
  = filter (fun k : column => negb (mem (fst k) categorical_vars)) (cols data).
Proof.
  unfold drop, normalizado, normalizado_por. cbn [cols].
  rewrite filter_app.
  match goal with |- _ ++ ?b = _ => assert (E : b = []) end.
  { apply filter_nil. intros k Hk. apply in_map_iff in Hk.
    destruct Hk as (c' & <- & Hc'). cbn [fst].
    apply filter_In in Hc'.
    rewrite (proj2 (mem_In c' categorical_vars)); tauto. }
  rewrite E, app_nil_r.
  induction (cols data) as [|k l IH]; [reflexivity|].
  cbn [map filter]. destruct (mem (fst k) categorical_vars) eqn:Em.
  - cbn [fst]. rewrite Em. cbn [negb]. exact IH.
  - rewrite Em. cbn [negb]. rewrite IH. reflexivity.
Qed.

(** The pass never raises when each categorical attribute labels at
    most one column. *)
Lemma codificar_spec (data : DataFrame) :
  (forall c, In c categorical_vars -> at_most_once c data) ->
  codificar data = (Ok (codificado data), normalizado data).
Proof.
  intros Hu. unfold codificar.
  rewrite normalizar_categoricas_spec; auto.
  2:{ unfold categorical_vars.
      repeat (constructor; [simpl; intuition discriminate|]). constructor. }
  fold (normalizado data). f_equal.
  unfold get_dummies.
  rewrite getitem_list_ok by (intros; apply contains_normalizado; assumption).
  cbn [bind]. rewrite drop_normalizado. reflexivity.
Qed.

Lemma indicadores_labels (data : DataFrame) (k : column) :
  In k (indicadores data) -> is_indicator_label (fst k) = true.
Proof.
  unfold indicadores. rewrite in_flat_map. intros (k' & Hk' & Hk).
  apply in_flat_map in Hk'. destruct Hk' as (c & Hc & Hk').
  apply filter_In in Hk'. destruct Hk' as [_ Hl].
  apply has_label_eq in Hl.
  unfold get_dummies_1d in Hk. apply in_map_iff in Hk.
  destruct Hk as (level & <- & _). cbn [fst].
  unfold is_indicator_label. apply existsb_exists.
  exists c. split; [assumption|]. rewrite Hl, app_assoc.
  apply starts_with_app.
Qed.

(** A label that is neither an attribute nor indicator-shaped occurs
    in the encoded frame exactly as in the raw one. *)
Lemma filter_codificado (data : DataFrame) (c : pystr) :
  mem c categorical_vars = false -> is_indicator_label c = false ->
  filter (has_label c) (cols (codificado data))
  = filter (has_label c) (cols data).
Proof.
  intros Hm Hi. unfold codificado. cbn [cols]. rewrite filter_app.
  match goal with |- _ ++ ?b = _ => assert (E : b = []) end.
  { apply filter_nil. intros k Hk.
    destruct (has_label c k) eqn:El; [|reflexivity].
    apply has_label_eq in El. apply indicadores_labels in Hk.
    congruence. }
  rewrite E, app_nil_r.
  induction (cols data) as [|k l IH]; [reflexivity|].
  cbn [filter]. destruct (has_label c k) eqn:El.
  - apply has_label_eq in El. rewrite El, Hm. cbn [negb filter].
    unfold has_label at 1. rewrite El, eqb_refl. rewrite IH. reflexivity.
  - destruct (negb (mem (fst k) categorical_vars)); [cbn [filter]; rewrite El|];
      exact IH.
Qed.
End Codificacion.

(** ** The column loops *)

Section Bucles.
Context {lib : Numerics}.

Lemma coerce_idempotent (v : cell) : coerce (coerce v) = coerce v.
Proof.
  unfold coerce. cbn [to_numeric]. f_equal.
  destruct (to_numeric v); reflexivity.
Qed.

Lemma for_present_columns (f : item -> result (list cell))
      (vars : list pystr) :
  forall df df', for_present f vars df = Ok df' ->
                 columns df' = columns df /\ nrows df' = nrows df.
Proof.
  induction vars as [|col vars IH]; intros df df' H; simpl in H.
  - injection H as <-. auto.
  - destruct (contains col df) eqn:Hc; [|auto].
    destruct (getitem df col) as [it|]; [|discriminate]. cbn [bind] in H.
    destruct (f it) as [v|]; [|discriminate]. cbn [bind] in H.
    apply IH in H. destruct H as [H1 H2].
    rewrite H1, H2, nrows_setitem, columns_setitem_present; auto.
Qed.



(** The coercion loop in closed form. *)
Lemma convertir_a_numerico_spec (vars : list pystr) :
  forall df,
    (forall c, In c vars -> at_most_once c df) ->
    convertir_a_numerico vars df = Ok (numerico vars df).
Proof.
  unfold convertir_a_numerico.
  induction vars as [|col vars IH]; intros df Hu; simpl.
  - unfold numerico. cbn [mem existsb]. rewrite map_id.
    destruct df; reflexivity.
  - destruct (contains col df) eqn:Hc.
    + destruct (getitem_series df col Hc (Hu col (or_introl eq_refl)))
        as (k0 & Hk0 & ->). cbn [bind to_numeric_fillna].
      rewrite IH.
      2:{ intros c Hcin. eapply at_most_once_columns.
          - symmetry. apply columns_setitem_present. exact Hc.
          - apply Hu. right; assumption. }
      unfold numerico. rewrite nrows_setitem. do 2 f_equal.
      unfold setitem. rewrite Hc. cbn [cols]. rewrite map_map.
      apply map_ext_in. intros k Hk. rewrite mem_cons.
      destruct (has_label col k) eqn:Hl.
      * assert (Hin : In k (filter (has_label col) (cols df)))
          by (apply filter_In; auto).
        rewrite Hk0 in Hin. destruct Hin as [<-|[]].
        apply has_label_eq in Hl. cbn [fst snd]. rewrite Hl, eqb_refl.
        cbn [orb]. destruct (mem col vars); [|reflexivity].
        f_equal. rewrite map_map. apply map_ext. apply coerce_idempotent.
      * unfold has_label in Hl. rewrite eqb_sym, Hl. reflexivity.
    + rewrite IH by (intros; apply Hu; right; assumption).
      unfold numerico. do 2 f_equal. apply map_ext_in. intros k Hk.
      rewrite mem_cons.
      assert (Hne : PyStr.eqb (fst k) col = false).
      { apply eqb_neq. intros E.
        assert (contains col df = true).
        { apply contains_In. rewrite <- E. apply in_map. assumption. }
        congruence. }
      rewrite Hne. reflexivity.
Qed.
End Bucles.

(** ** Assembling the training matrix *)

Lemma getitem_list_sub (X : DataFrame) (keys : list pystr) :
  forall ks, getitem_list X keys = Ok ks ->
             forall k, In k ks -> In k (cols X) /\ In (fst k) keys.
Proof.
  induction keys as [|c keys IH]; intros ks H k Hk; simpl in H.
  - injection H as <-. destruct Hk.
  - destruct (filter (has_label c) (cols X)) as [|k1 l1] eqn:E;
      [discriminate|].
    destruct (getitem_list X keys) as [rest|]; [|discriminate].
    cbn [bind] in H. injection H as <-.
    change (In k ((k1 :: l1) ++ rest)) in Hk.
    apply in_app_iff in Hk. destruct Hk as [Hk|Hk].
    + rewrite <- E in Hk. apply filter_In in Hk. destruct Hk as [Hk Hl].
      apply has_label_eq in Hl. split; [assumption|left; auto].
    + destruct (IH rest eq_refl k Hk). split; [assumption|right; assumption].
Qed.

Lemma In_drop (df : DataFrame) (labels : list pystr) (k : column) :
  In k (cols (drop df labels)) <-> In k (cols df) /\ ~ In (fst k) labels.
Proof.
  unfold drop. cbn [cols]. rewrite filter_In, negb_true_iff, mem_not_In.
  tauto.
Qed.

Lemma forzar_presencia_incl (cands : list pystr) :
  forall X k, In k (cols X) -> In k (cols (forzar_presencia cands X)).
Proof.
  unfold forzar_presencia.
  induction cands as [|c cands IH]; intros X k Hk; simpl; auto.
  apply IH. destruct (contains c X) eqn:Hc; auto.
  unfold setitem_scalar, setitem. rewrite Hc. cbn [cols].
  apply in_app_iff. auto.
Qed.

Lemma forzar_presencia_columns (cands : list pystr) :
  forall X l, In l (columns (forzar_presencia cands X)) ->
              In l (columns X) \/ In l cands.
Proof.
  unfold forzar_presencia.
  induction cands as [|c cands IH]; intros X l Hl; simpl in *; auto.
  apply IH in Hl. destruct Hl as [Hl|Hl]; [|auto].
  destruct (contains c X) eqn:Hc; auto.
  unfold setitem_scalar, setitem, columns in Hl. rewrite Hc in Hl.
  cbn [cols] in Hl. rewrite map_app in Hl. apply in_app_iff in Hl.
  destruct Hl as [Hl|[Hl|[]]]; auto.
Qed.

Lemma nrows_forzar_presencia (cands : list pystr) :
  forall X, nrows (forzar_presencia cands X) = nrows X.
Proof.
  unfold forzar_presencia.
  induction cands as [|c cands IH]; intros X; simpl; auto.
  rewrite IH. destruct (contains c X); auto.
  unfold setitem_scalar. apply nrows_setitem.
Qed.

Section Entrenamiento.
Context {lib : Numerics}.

Lemma columns_numerico (vars : list pystr) (df : DataFrame) :
  columns (numerico vars df) = columns df.
Proof.
  unfold numerico. destruct df as [n l]. apply columns_map.
  intros k. cbn [cols]. destruct (mem (fst k) vars); reflexivity.
Qed.

Lemma In_numerico_other (vars : list pystr) (df : DataFrame) (k : column) :
  mem (fst k) vars = false -> In k (cols df) -> In k (cols (numerico vars df)).
Proof.
  intros Hm Hk. unfold numerico. cbn [cols]. apply in_map_iff.
  exists k. rewrite Hm. auto.
Qed.

Lemma In_numerico_var (vars : list pystr) (df : DataFrame) (k : column) :
  mem (fst k) vars = true -> In k (cols df) ->
  In (fst k, map coerce (snd k)) (cols (numerico vars df)).
Proof.
  intros Hm Hk. unfold numerico. cbn [cols]. apply in_map_iff.
  exists k. rewrite Hm. auto.
Qed.

(** The tail of [preprocesar_datos] on an encoded frame that has the
    target: it returns, and [y] is the coerced target column. *)
Lemma construir_X_y_ok (enc : DataFrame) (c : Z) :
  (forall l, In l (num_vars c) -> at_most_once l enc) ->
  at_most_once target_col enc ->
  contains target_col enc = true ->
  exists X k0,
    construir_X_y enc c = Ok (X, map coerce (snd k0), columns X) /\
    filter (has_label target_col) (cols enc) = [k0] /\
    nrows X = nrows enc /\
    (forall k, In k (cols X) ->
               In k (cols (numerico (num_vars c) enc)) /\
               fst k <> target_col /\ ~ In (fst k) id_cols) /\
    (forall k, In k (cols (numerico (num_vars c) enc)) ->
               fst k <> target_col -> ~ In (fst k) id_cols ->
               In k (cols X)).
Proof.
  intros Hu Ht Hc. unfold construir_X_y.
  rewrite convertir_a_numerico_spec by assumption. cbn [bind].
  set (enc' := numerico (num_vars c) enc).
  assert (Hcols : columns enc' = columns enc) by apply columns_numerico.
  assert (Hc' : contains target_col enc' = true)
    by (rewrite (contains_columns _ _ _ Hcols); assumption).
  rewrite Hc'. cbn [negb].
  destruct (getitem_series enc' target_col Hc') as (k1 & Hk1 & ->).
  { eapply at_most_once_columns; [symmetry; exact Hcols|assumption]. }
  cbn [bind to_numeric_fillna].
  destruct (getitem_series enc target_col Hc Ht) as (k0 & Hk0 & _).
  assert (E1 : k1 = k0).
  { assert (Hin : In k0 (filter (has_label target_col) (cols enc)))
      by (rewrite Hk0; left; reflexivity).
    apply filter_In in Hin. destruct Hin as [Hin Hl].
    assert (Hin' : In k0 (filter (has_label target_col) (cols enc'))).
    { apply filter_In. split; [|assumption].
      apply In_numerico_other; [|assumption].
      apply has_label_eq in Hl. rewrite Hl.
      destruct (mem target_col (num_vars c)) eqn:Em; [|reflexivity].
      apply mem_In, num_vars_not_reserved in Em. tauto. }
    rewrite Hk1 in Hin'. destruct Hin' as [E|[]]; exact E. }
  subst k1.
  set (cands := filter (fun c0 => contains c0 enc') (num_vars c)).
  set (L := filter (fun c0 => contains c0 enc')
                   (filter (fun c0 => contains c0 enc') id_cols
                    ++ [target_col])).
  set (X2 := forzar_presencia cands (drop enc' L)).
  set (ordered := filter (fun c0 => contains c0 X2) cands).
  set (other := filter (fun c0 => negb (mem c0 ordered)) (columns X2)).
  rewrite getitem_list_ok.
  2:{ intros l Hl. apply in_app_iff in Hl. destruct Hl as [Hl|Hl].
      - apply filter_In in Hl. tauto.
      - apply filter_In in Hl. apply contains_In. tauto. }
  cbn [bind].
  assert (HL : forall l, In l (columns enc') ->
                         (In l L <-> l = target_col \/ In l id_cols)).
  { intros l Hl. unfold L. rewrite filter_In, in_app_iff, filter_In.
    apply contains_In in Hl. cbn [In]. intuition (subst; auto). }
  assert (Hcand : forall l, In l cands ->
                            l <> target_col /\ ~ In l id_cols).
  { intros l Hl. apply filter_In in Hl. destruct Hl as [Hl _].
    apply num_vars_not_reserved in Hl. tauto. }
  assert (HX2 : forall k, In k (cols X2) <->
                          In k (cols enc') /\ fst k <> target_col
                          /\ ~ In (fst k) id_cols).
  { intros k. split.
    - intros Hk.
      assert (Hlab : In (fst k) (columns X2)) by (apply in_map; assumption).
      apply forzar_presencia_columns in Hlab.
      (* every candidate is already a column, so nothing was appended *)
      assert (Hsame : forall cs X, (forall l, In l cs -> contains l X = true) ->
                                   forzar_presencia cs X = X).
      { clear. unfold forzar_presencia.
        induction cs as [|c0 cs IH]; intros X H; simpl; auto.
        rewrite (H c0 (or_introl eq_refl)). apply IH.
        intros; apply H; right; assumption. }
      unfold X2 in Hk. rewrite Hsame in Hk.
      + apply In_drop in Hk. destruct Hk as [Hk Hn].
        split; [assumption|].
        rewrite HL in Hn by (apply in_map; assumption). tauto.
      + intros l Hl. apply contains_In.
        pose proof (Hcand l Hl) as Hres.
        apply filter_In in Hl. destruct Hl as [_ Hl].
        apply contains_In in Hl. unfold columns in Hl.
        apply in_map_iff in Hl. destruct Hl as (k' & <- & Hk').
        apply in_map. apply In_drop. split; [assumption|].
        rewrite HL by (apply in_map; assumption). tauto.
    - intros (Hk & H1 & H2). apply forzar_presencia_incl.
      apply In_drop. split; [assumption|].
      rewrite HL by (apply in_map; assumption). tauto. }
  assert (Hks : forall k,
             In k (flat_map (fun c0 => filter (has_label c0) (cols X2))
                            (ordered ++ other))
             <-> In k (cols X2)).
  { intros k. rewrite in_flat_map. split.
    - intros (l & _ & Hk). apply filter_In in Hk. tauto.
    - intros Hk. exists (fst k). split.
      + apply in_app_iff. destruct (mem (fst k) ordered) eqn:Em.
        * left. apply mem_In. assumption.
        * right. apply filter_In. rewrite Em. split; [|reflexivity].
          apply in_map. assumption.
      + apply filter_In. split; [assumption|].
        apply has_label_eq. reflexivity. }
  eexists. exists k0. split; [reflexivity|]. split; [assumption|].
  cbn [nrows cols]. split.
  { unfold X2. rewrite nrows_forzar_presencia. reflexivity. }
  split.
  - intros k Hk. apply Hks in Hk. apply HX2 in Hk. exact Hk.
  - intros k Hk H1 H2. apply Hks. apply HX2. auto.
Qed.

(** Without the target the tail raises the schema error. *)
Lemma construir_X_y_sin_target (enc : DataFrame) (c : Z) :
  (forall l, In l (num_vars c) -> at_most_once l enc) ->
  contains target_col enc = false ->
  construir_X_y enc c = Raise ValueError.
Proof.
  intros Hu Hc. unfold construir_X_y.
  rewrite convertir_a_numerico_spec by assumption. cbn [bind].
  rewrite (contains_columns _ _ _ (columns_numerico _ _)), Hc. reflexivity.
Qed.
End Entrenamiento.

(** ** Alignment *)

Lemma first_occurrences_fresh (ks : list column) :
  forall seen k, In k (first_occurrences seen ks) ->
                 mem (fst k) seen = false /\ In k ks.
Proof.
  induction ks as [|k0 ks IH]; intros seen k Hk; simpl in Hk; [destruct Hk|].
  destruct (mem (fst k0) seen) eqn:Em.
  - destruct (IH _ _ Hk). split; [assumption|right; assumption].
  - destruct Hk as [<-|Hk]; [split; [assumption|left; reflexivity]|].
    destruct (IH _ _ Hk) as [H1 H2]. rewrite mem_cons in H1.
    apply orb_false_iff in H1. split; [tauto|right; assumption].
Qed.

Lemma first_occurrences_unique (ks : list column) :
  forall seen, unique_labels (map fst (first_occurrences seen ks)) = true.
Proof.
  induction ks as [|k0 ks IH]; intros seen; simpl; auto.
  destruct (mem (fst k0) seen) eqn:Em; [apply IH|].
  simpl. rewrite IH, andb_true_r. apply negb_true_iff, mem_not_In.
  intros Hin. apply in_map_iff in Hin. destruct Hin as (k & E & Hk).
  apply first_occurrences_fresh in Hk. destruct Hk as [Hk _].
  rewrite mem_cons, E, eqb_refl in Hk. discriminate.
Qed.

Lemma first_occurrences_find (c : pystr) (ks : list column) :
  forall seen, mem c seen = false ->
               find (has_label c) (first_occurrences seen ks)
               = find (has_label c) ks.
Proof.
  induction ks as [|k0 ks IH]; intros seen Hc; simpl; auto.
  destruct (mem (fst k0) seen) eqn:Em.
  - destruct (has_label c k0) eqn:El.
    + apply has_label_eq in El. congruence.
    + apply IH. assumption.
  - simpl. destruct (has_label c k0) eqn:El; [reflexivity|].
    apply IH. rewrite mem_cons. unfold has_label in El. rewrite El, Hc.
    reflexivity.
Qed.

Lemma find_label_In (c : pystr) (ks : list column) (k : column) :
  find (has_label c) ks = Some k -> In k ks /\ fst k = c.
Proof.
  intros H. apply find_some in H. rewrite has_label_eq in H. exact H.
Qed.

Lemma find_label_None (c : pystr) (ks : list column) :
  find (has_label c) ks = None <-> ~ In c (map fst ks).
Proof.
  split.
  - intros H Hin. apply in_map_iff in Hin. destruct Hin as (k & E & Hk).
    pose proof (find_none _ _ H k Hk) as Hf.
    rewrite (proj2 (has_label_eq c k) E) in Hf. discriminate.
  - intros H. destruct (find (has_label c) ks) as [k|] eqn:E; [|reflexivity].
    apply find_label_In in E. destruct E as [Hk <-].
    exfalso. apply H. apply in_map. assumption.
Qed.

Lemma columns_reindex (df : DataFrame) (target : list pystr) (x : cell)
      (X : DataFrame) :
  reindex df target x = Ok X -> columns X = target /\ nrows X = nrows df.
Proof.
  unfold reindex. destruct (unique_labels (columns df)); [|discriminate].
  intros H. injection H as <-. split; [|reflexivity].
  unfold columns. cbn [cols]. rewrite map_map.
  rewrite <- (map_id target) at 2. apply map_ext.
  intros c. destruct (lookup c (cols df)); reflexivity.
Qed.

(** ** Training-mode preprocessing *)

Section Teoremas_entrenamiento.
Context {lib : Numerics}.

Lemma construir_X_y_names (enc : DataFrame) (c : Z) X y names :
  construir_X_y enc c = Ok (X, y, names) ->
  names = columns X /\
  forall l, In l names -> l <> target_col /\ ~ In l id_cols.
Proof.
  unfold construir_X_y.
  destruct (convertir_a_numerico (num_vars c) enc) as [enc'|];
    [|discriminate]. cbn [bind].
  destruct (contains target_col enc') eqn:Hc; [|discriminate]. cbn [negb].
  destruct (getitem enc' target_col) as [it|]; [|discriminate]. cbn [bind].
  destruct (to_numeric_fillna it) as [y'|]; [|discriminate]. cbn [bind].
  match goal with
  | |- context [getitem_list ?X2 ?keys] =>
      destruct (getitem_list X2 keys) as [ks|] eqn:Hks; [|discriminate];
      set (X2' := X2) in *
  end.
  cbn [bind]. intros H. injection H as <- <- <-.
  split; [reflexivity|].
  intros l Hl. unfold columns in Hl. cbn [cols] in Hl.
  apply in_map_iff in Hl. destruct Hl as (k & <- & Hk).
  destruct (getitem_list_sub _ _ _ Hks k Hk) as [Hk2 _].
  assert (Hlab : In (fst k) (columns X2')) by (apply in_map; assumption).
  apply forzar_presencia_columns in Hlab. destruct Hlab as [Hlab|Hlab].
  - unfold columns in Hlab. apply in_map_iff in Hlab.
    destruct Hlab as (k' & E & Hk'). rewrite <- E.
    apply In_drop in Hk'. destruct Hk' as [Hin Hn].
    assert (Hcont : contains (fst k') enc' = true)
      by (apply contains_In, in_map; assumption).
    rewrite filter_In, in_app_iff, filter_In in Hn. cbn [In] in Hn.
    split.
    + intros Et. apply Hn. split; [|assumption]. right. left. auto.
    + intros Hid. apply Hn. split; [|assumption]. left. auto.
  - apply filter_In in Hlab. destruct Hlab as [Hlab _].
    apply num_vars_not_reserved in Hlab. tauto.
Qed.

(** C10. The feature-name list of a successful training-mode run
    holds neither the target OFERTAS nor the identifiers REMID,
    PATENTE, LOTEID. *)
Theorem columnas_features_sin_target_ni_ids
        (data : DataFrame) (dia_remate : Z) X y columnas_features :
  fst (preprocesar_datos data dia_remate) = Ok (X, y, columnas_features) ->
  columnas_features = columns X /\
  ~ In (py "OFERTAS") columnas_features /\
  ~ In (py "REMID") columnas_features /\
  ~ In (py "PATENTE") columnas_features /\
  ~ In (py "LOTEID") columnas_features.
Proof.
  unfold preprocesar_datos.
  destruct (codificar data) as [[enc|e] data']; cbn [fst]; [|discriminate].
  intros H. apply construir_X_y_names in H. destruct H as [-> H].
  split; [reflexivity|].
  repeat split; intros Hin; apply H in Hin; destruct Hin as [H1 H2].
  - apply H1. reflexivity.
  - apply H2. simpl. auto.
  - apply H2. simpl. auto.
  - apply H2. simpl. auto.
Qed.

Lemma at_most_once_codificado (data : DataFrame) (l : pystr) :
  NoDup (columns data) ->
  mem l categorical_vars = false -> is_indicator_label l = false ->
  at_most_once l (codificado data).
Proof.
  intros Hnd Hm Hi. unfold at_most_once.
  rewrite filter_codificado by assumption.
  apply NoDup_at_most_once. assumption.
Qed.

Lemma contains_codificado (data : DataFrame) (l : pystr) :
  mem l categorical_vars = false -> is_indicator_label l = false ->
  contains l (codificado data) = contains l data.
Proof.
  intros Hm Hi.
  pose proof (contains_filter l (codificado data)) as H1.
  pose proof (contains_filter l data) as H2.
  rewrite filter_codificado in H1 by assumption.
  destruct (contains l (codificado data)), (contains l data); auto.
  - symmetry. apply H2, H1. reflexivity.
  - apply H1, H2. reflexivity.
Qed.

Lemma num_vars_at_most_once (data : DataFrame) (c : Z) :
  NoDup (columns data) ->
  forall l, In l (num_vars c) -> at_most_once l (codificado data).
Proof.
  intros Hnd l Hl. apply at_most_once_codificado; auto.
  - apply num_vars_not_reserved in Hl. tauto.
  - eapply num_vars_not_indicator; eassumption.
Qed.

Lemma codificar_NoDup (data : DataFrame) :
  NoDup (columns data) ->
  codificar data = (Ok (codificado data), normalizado data).
Proof.
  intros Hnd. apply codificar_spec. intros; apply NoDup_at_most_once; auto.
Qed.

End Teoremas_entrenamiento.

(** ** Inference-mode preprocessing *)

Lemma find_unique (c : pystr) (df : DataFrame) (k : column) :
  at_most_once c df -> In k (cols df) -> fst k = c ->
  find (has_label c) (cols df) = Some k.
Proof.
  intros Hu Hk Hl.
  assert (Hin : In k (filter (has_label c) (cols df)))
    by (apply filter_In; split; [assumption|apply has_label_eq; assumption]).
  destruct (find (has_label c) (cols df)) as [k'|] eqn:E.
  - apply find_label_In in E. destruct E as [Hk' Hl'].
    assert (Hin' : In k' (filter (has_label c) (cols df)))
      by (apply filter_In; split; [assumption|apply has_label_eq; assumption]).
    unfold at_most_once in Hu.
    destruct (filter (has_label c) (cols df)) as [|a [|b l]]; simpl in *;
      try lia; try tauto.
    destruct Hin as [<-|[]], Hin' as [<-|[]]. reflexivity.
  - apply find_label_None in E. exfalso. apply E. rewrite <- Hl.
    apply in_map. assumption.
Qed.

Section Teoremas_inferencia.
Context {lib : Numerics}.

Lemma alinear_spec (enc : DataFrame) (S1 : list pystr) (c : Z) :
  (forall l, In l (num_vars c) -> at_most_once l enc) ->
  alinear enc S1 c = Ok (alineado enc S1 c).
Proof.
  intros Hu. unfold alinear.
  rewrite convertir_a_numerico_spec by assumption. cbn [bind].
  unfold reindex, drop_duplicate_columns, columns. cbn [cols nrows].
  rewrite first_occurrences_unique. unfold alineado. do 2 f_equal.
  apply map_ext. intros l. unfold lookup.
  rewrite first_occurrences_find by reflexivity. reflexivity.
Qed.

Lemma alinear_columns (enc : DataFrame) (S1 : list pystr) (c : Z) X :
  alinear enc S1 c = Ok X -> columns X = S1.
Proof.
  unfold alinear.
  destruct (convertir_a_numerico (num_vars c) enc) as [enc'|]; [|discriminate].
  cbn [bind]. intros H. apply columns_reindex in H. tauto.
Qed.

(** C1. Whatever the persisted feature-name list [S1] and the raw
    inference record set, a frame returned by inference-mode
    preprocessing has exactly the columns [S1], in that order.  On a raw
    record set (distinct column labels) the call returns without an
    exception: every [S1] label absent from the freshly encoded frame is a
    column of 0.0, every [S1] label present carries the encoded (and
    coerced) column, and encoded columns outside [S1] are gone. *)
Theorem alineacion_con_entrenamiento
        (data : DataFrame) (S1 : list pystr) (dia_remate : Z) :
  (forall X, fst (preprocesar_datos_inferencia data S1 dia_remate) = Ok X ->
             columns X = S1) /\
  (NoDup (columns data) ->
   exists X,
     fst (preprocesar_datos_inferencia data S1 dia_remate) = Ok X /\
     fst (codificar data) = Ok (codificado data) /\
     columns X = S1 /\
     nrows X = nrows data /\
     (forall l, In l S1 -> ~ In l (columns (codificado data)) ->
                In (l, repeat (CNum (Fin 0)) (nrows data)) (cols X)) /\
     (forall l v, In (l, v) (cols X) -> In l (columns (codificado data)) ->
                  In (l, v)
                     (cols (numerico (num_vars dia_remate) (codificado data)))) /\
     (forall l, In l S1 -> In l (columns (codificado data)) ->
                exists v,
                  lookup l (cols (numerico (num_vars dia_remate)
                                           (codificado data))) = Some v /\
                  In (l, v) (cols X)) /\
     (forall l, In l (columns (codificado data)) -> ~ In l S1 ->
                ~ In l (columns X))).
Proof.
  split.
  - intros X. unfold preprocesar_datos_inferencia.
    destruct (codificar data) as [[enc|e] data']; cbn [fst]; [|discriminate].
    apply alinear_columns.
  - intros Hnd. unfold preprocesar_datos_inferencia.
    rewrite codificar_NoDup by assumption. cbn [fst].
    rewrite alinear_spec by (apply num_vars_at_most_once; assumption).
    exists (alineado (codificado data) S1 dia_remate).
    assert (Hcols : columns (alineado (codificado data) S1 dia_remate) = S1).
    { eapply alinear_columns. apply alinear_spec.
      apply num_vars_at_most_once; assumption. }
    split; [reflexivity|]. split; [reflexivity|]. split; [exact Hcols|].
    split; [reflexivity|].
    set (enc' := numerico (num_vars dia_remate) (codificado data)).
    split; [|split; [|split]].
    + intros l Hl Habs. unfold alineado. cbn [cols nrows]. apply in_map_iff.
      exists l. split; [|assumption]. fold enc'. unfold lookup.
      rewrite (proj2 (find_label_None l (cols enc'))); [reflexivity|].
      fold (columns enc'). unfold enc'. rewrite columns_numerico. assumption.
    + intros l v Hin Hl. unfold alineado in Hin. cbn [cols nrows] in Hin.
      apply in_map_iff in Hin. destruct Hin as (l' & E & _).
      fold enc' in E. unfold lookup in E.
      destruct (find (has_label l') (cols enc')) as [k|] eqn:Ef.
      * injection E as <- <-. apply find_label_In in Ef.
        destruct Ef as [Hk <-]. destruct k; exact Hk.
      * injection E as <- _. apply find_label_None in Ef. exfalso. apply Ef.
        fold (columns enc'). unfold enc'. rewrite columns_numerico. assumption.
    + intros l HS Hl. unfold lookup.
      destruct (find (has_label l) (cols enc')) as [k|] eqn:Ef.
      * exists (snd k). split; [reflexivity|].
        unfold alineado. cbn [cols]. apply in_map_iff. exists l.
        split; [|assumption]. fold enc'. unfold lookup. rewrite Ef.
        reflexivity.
      * apply find_label_None in Ef. exfalso. apply Ef.
        fold (columns enc'). unfold enc'. rewrite columns_numerico. assumption.
    + intros l _ Hn. rewrite Hcols. assumption.
Qed.
End Teoremas_inferencia.

(** ** Numeric coercion *)

Section Teoremas_coercion.
Context {lib : Numerics}.

Lemma In_codificado_raw (data : DataFrame) (k : column) :
  mem (fst k) categorical_vars = false -> In k (cols data) ->
  In k (cols (codificado data)).
Proof.
  intros Hm Hk. unfold codificado. cbn [cols]. apply in_app_iff. left.
  apply filter_In. rewrite Hm. auto.
Qed.

Lemma coerce_cases (v : cell) :
  coerce v <> CNull /\ coerce v <> CNum NaN /\
  (to_numeric v <> NaN -> coerce v = CNum (to_numeric v)) /\
  (to_numeric v = NaN -> coerce v = CNum (Fin 0)).
Proof.
  unfold coerce. destruct (to_numeric v); cbn [fillna0];
    repeat split; try discriminate; try reflexivity; congruence.
Qed.

(** C6. Coercion of a declared numeric column: a value that reads as a
    number becomes that number; every other value, the empty string and
    missing values included, becomes 0.0 and never a missing-value
    marker.  On a raw record set (distinct column labels) the coercion
    loop returns in both preprocessors, and each declared numeric column
    present in the input comes out of training-mode and of inference-mode
    preprocessing as the same element-wise coercion of its raw values. *)
Theorem coercion_numerica
        (data : DataFrame) (dia_remate : Z) (S1 : list pystr) :
  (forall v, coerce v <> CNull /\ coerce v <> CNum NaN /\
             (to_numeric v <> NaN -> coerce v = CNum (to_numeric v)) /\
             (to_numeric v = NaN -> coerce v = CNum (Fin 0))) /\
  (coerce (CStr []) = CNum (Fin 0) /\ coerce CNull = CNum (Fin 0) /\
   coerce (CNum NaN) = CNum (Fin 0) /\
   (forall s, floatify s = None -> coerce (CStr s) = CNum (Fin 0)) /\
   (forall s x, s <> [] -> floatify s = Some x -> x <> NaN ->
                coerce (CStr s) = CNum x) /\
   (forall x, x <> NaN -> coerce (CNum x) = CNum x)) /\
  (NoDup (columns data) ->
   (exists enc,
       fst (codificar data) = Ok enc /\
       convertir_a_numerico (num_vars dia_remate) enc
       = Ok (numerico (num_vars dia_remate) enc)) /\
   (forall col v,
       In col (num_vars dia_remate) -> In (col, v) (cols data) ->
       (In (py "OFERTAS") (columns data) ->
        exists X y names,
          fst (preprocesar_datos data dia_remate) = Ok (X, y, names) /\
          In (col, map coerce v) (cols X)) /\
       (In col S1 ->
        exists X,
          fst (preprocesar_datos_inferencia data S1 dia_remate) = Ok X /\
          In (col, map coerce v) (cols X)))).
Proof.
  split; [exact coerce_cases|]. split.
  - repeat split; try reflexivity.
    + intros s H. unfold coerce, to_numeric. destruct s; [reflexivity|].
      rewrite H. reflexivity.
    + intros s x Hs H Hx. unfold coerce, to_numeric. destruct s; [congruence|].
      rewrite H. destruct x; try reflexivity. congruence.
    + intros x Hx. unfold coerce. cbn [to_numeric].
      destruct x; try reflexivity. congruence.
  - intros Hnd.
    assert (Hu : forall l, In l (num_vars dia_remate) ->
                           at_most_once l (codificado data))
      by (apply num_vars_at_most_once; assumption).
    split.
    { exists (codificado data). rewrite codificar_NoDup by assumption.
      split; [reflexivity|]. apply convertir_a_numerico_spec. assumption. }
    intros col v Hcol Hin.
    pose proof (num_vars_not_reserved _ _ Hcol) as (Hcat & Htar & Hid).
    assert (Henc : In (col, map coerce v)
                      (cols (numerico (num_vars dia_remate) (codificado data)))).
    { apply (In_numerico_var _ _ (col, v)).
      - apply mem_In. assumption.
      - apply In_codificado_raw; assumption. }
    split.
    + intros Ht. unfold preprocesar_datos.
      rewrite codificar_NoDup by assumption. cbn [fst].
      destruct (construir_X_y_ok (codificado data) dia_remate Hu)
        as (X & k0 & HX & _ & _ & _ & Hall).
      * apply at_most_once_codificado; auto.
      * rewrite contains_codificado by reflexivity. apply contains_In. exact Ht.
      * exists X, (map coerce (snd k0)), (columns X).
        split; [exact HX|]. apply Hall; assumption.
    + intros HS. unfold preprocesar_datos_inferencia.
      rewrite codificar_NoDup by assumption. cbn [fst].
      rewrite alinear_spec by assumption.
      eexists. split; [reflexivity|].
      unfold alineado. cbn [cols]. apply in_map_iff. exists col.
      split; [|assumption]. unfold lookup.
      rewrite (find_unique col _ (col, map coerce v)); auto.
      eapply at_most_once_columns; [|apply Hu; exact Hcol].
      symmetry. apply columns_numerico.
Qed.
End Teoremas_coercion.

(** ** Writes to the caller's frame *)

Lemma NoDup_labels_functional (l : list column) (c : pystr) (v w : list cell) :
  NoDup (map fst l) -> In (c, v) l -> In (c, w) l -> v = w.
Proof.
  induction l as [|k l IH]; simpl; intros Hnd Hv Hw; [destruct Hv|].
  inversion Hnd as [|? ? Hn Hd]; subst.
  destruct Hv as [->|Hv], Hw as [E|Hw].
  - congruence.
  - exfalso. apply Hn. apply (in_map fst) in Hw. exact Hw.
  - exfalso. apply Hn. subst k. apply (in_map fst) in Hv. exact Hv.
  - auto.
Qed.

Lemma In_columns_setitem (df : DataFrame) (c : pystr) (v : list cell) :
  In c (columns (setitem df c v)).
Proof.
  unfold setitem. destruct (contains c df) eqn:Hc.
  - apply contains_In in Hc. unfold columns in *. cbn [cols].
    rewrite map_map. apply in_map_iff in Hc. destruct Hc as (k & <- & Hk).
    apply in_map_iff. exists k. split; [|assumption].
    destruct (has_label (fst k) k); reflexivity.
  - unfold columns. cbn [cols]. rewrite map_app. apply in_app_iff.
    right. left. reflexivity.
Qed.

Section Teoremas_mutacion.
Context {lib : Numerics}.

Lemma In_normalizado_cat (data : DataFrame) (col : pystr) (v : list cell) :
  In col categorical_vars -> In (col, v) (cols data) ->
  In (col, map normalizar_celda v) (cols (normalizado data)).
Proof.
  intros Hc Hin. unfold normalizado, normalizado_por. cbn [cols].
  apply in_app_iff. left. apply in_map_iff. exists (col, v).
  cbn [fst snd]. rewrite (proj2 (mem_In _ _) Hc). auto.
Qed.

Lemma In_normalizado_absent (data : DataFrame) (col : pystr) :
  In col categorical_vars -> ~ In col (columns data) ->
  In (col, repeat (CStr OTRO) (nrows data)) (cols (normalizado data)).
Proof.
  intros Hc Hn. unfold normalizado, normalizado_por. cbn [cols].
  apply in_app_iff. right. apply in_map_iff. exists col.
  split; [reflexivity|]. apply filter_In. split; [assumption|].
  apply negb_true_iff. apply mem_not_In. assumption.
Qed.

Lemma preprocesar_datos_inferencia_NoDup
      (data : DataFrame) (S1 : list pystr) (c : Z) :
  NoDup (columns data) ->
  preprocesar_datos_inferencia data S1 c
  = (Ok (alineado (codificado data) S1 c), normalizado data).
Proof.
  intros Hnd. unfold preprocesar_datos_inferencia.
  rewrite codificar_NoDup by assumption.
  rewrite alinear_spec by (apply num_vars_at_most_once; assumption).
  reflexivity.
Qed.

(** C9. The caller's raw frame is written to.  Both preprocessors leave
    in it what the normalisation loop wrote; on a raw record set (distinct
    column labels) that is: every categorical attribute present holds its
    normalised values, every absent one has been added as a constant
    "OTRO" column, so the frame differs from the one passed in whenever an
    attribute was absent or a value was not already normalised.  The
    inference pipeline further sets the column OFERTAS_PREDICHAS_RF of
    that same frame to the predictions, so a frame that came without that
    column is never returned unchanged. *)
Theorem mutacion_del_frame_de_entrada
        (data : DataFrame) (dia_remate : Z) (S1 : list pystr)
        (modelo : Regressor) (test subir_sql : bool) :
  snd (preprocesar_datos data dia_remate)
  = snd (normalizar_categoricas categorical_vars data) /\
  snd (preprocesar_datos_inferencia data S1 dia_remate)
  = snd (normalizar_categoricas categorical_vars data) /\
  (NoDup (columns data) ->
   snd (preprocesar_datos data dia_remate) = normalizado data /\
   snd (preprocesar_datos_inferencia data S1 dia_remate) = normalizado data /\
   (forall col, In col categorical_vars ->
      (forall v, In (col, v) (cols data) ->
                 In (col, map normalizar_celda v) (cols (normalizado data))) /\
      (forall v, In (col, v) (cols data) -> map normalizar_celda v <> v ->
                 normalizado data <> data) /\
      (~ In col (columns data) ->
       In (col, repeat (CStr OTRO) (nrows data)) (cols (normalizado data)) /\
       normalizado data <> data)) /\
   let corrida :=
     pipeline_inferencia_completo (Some (modelo, S1)) data dia_remate
                                  test subir_sql in
   data_raw_final corrida
   = setitem (normalizado data) OFERTAS_PREDICHAS_RF
             (modelo (alineado (codificado data) S1 dia_remate)) /\
   In OFERTAS_PREDICHAS_RF (columns (data_raw_final corrida)) /\
   (~ In OFERTAS_PREDICHAS_RF (columns data) -> data_raw_final corrida <> data)).
Proof.
  split; [|split].
  - unfold preprocesar_datos, codificar.
    destruct (normalizar_categoricas categorical_vars data) as [[e|] d];
      [reflexivity|].
    destruct (get_dummies d categorical_vars); reflexivity.
  - unfold preprocesar_datos_inferencia, codificar.
    destruct (normalizar_categoricas categorical_vars data) as [[e|] d];
      [reflexivity|].
    destruct (get_dummies d categorical_vars); reflexivity.
  - intros Hnd. split; [|split; [|split]].
    + unfold preprocesar_datos. rewrite codificar_NoDup by assumption.
      reflexivity.
    + rewrite preprocesar_datos_inferencia_NoDup by assumption. reflexivity.
    + intros col Hcol. split; [|split].
      * intros v Hv. apply In_normalizado_cat; assumption.
      * intros v Hv Hne E.
        pose proof (In_normalizado_cat data col v Hcol Hv) as Hin.
        rewrite E in Hin. apply Hne.
        eapply NoDup_labels_functional; eassumption.
      * intros Hn. split; [apply In_normalizado_absent; assumption|].
        intros E. apply Hn.
        pose proof (In_normalizado_absent data col Hcol Hn) as Hin.
        rewrite E in Hin. apply (in_map fst) in Hin. exact Hin.
    + cbv zeta. unfold pipeline_inferencia_completo.
      rewrite preprocesar_datos_inferencia_NoDup by assumption.
      set (final := setitem (normalizado data) OFERTAS_PREDICHAS_RF
                            (modelo (alineado (codificado data) S1 dia_remate))).
      assert (E : data_raw_final
                    (if subir_sql && negb test
                     then match preparar_datos_sql final dia_remate with
                          | Ok df_sql =>
                              mkCorrida (Ok final) final (Some final) (Some df_sql)
                          | Raise e => mkCorrida (Raise e) final (Some final) None
                          end
                     else mkCorrida (Ok final) final (Some final) None)
                  = final).
      { destruct (subir_sql && negb test); [|reflexivity].
        destruct (preparar_datos_sql final dia_remate); reflexivity. }
      rewrite E. split; [reflexivity|]. split.
      * apply In_columns_setitem.
      * intros Hn Eq. apply Hn. rewrite <- Eq. apply In_columns_setitem.
Qed.
End Teoremas_mutacion.

(** ** Idempotence of the normalisation-and-encoding pass *)

Lemma ltb_irrefl (s : pystr) : PyStr.ltb s s = false.
Proof.
  induction s as [|x s IH]; simpl; auto.
  rewrite N.ltb_irrefl, N.eqb_refl. exact IH.
Qed.

Lemma flat_map_nil {A B} (f : A -> list B) (l : list A) :
  (forall x, In x l -> f x = []) -> flat_map f l = [].
Proof.
  induction l as [|x l IH]; intros H; simpl; auto.
  rewrite (H x (or_introl eq_refl)). apply IH. intros; apply H; right; auto.
Qed.

Section Teoremas_idempotencia.
Context {lib : Numerics}.

Lemma normalizar_celda_idempotent (v : cell) :
  normalizar_celda (normalizar_celda v) = normalizar_celda v.
Proof.
  unfold normalizar_celda at 2 3.
  destruct (strip (astype_str v)) as [|x r] eqn:E; [reflexivity|].
  unfold normalizar_celda. cbn [astype_str].
  rewrite <- E, strip_idempotent, E. reflexivity.
Qed.

Lemma normalizar_celda_OTRO : normalizar_celda (CStr OTRO) = CStr OTRO.
Proof. reflexivity. Qed.

Lemma levels_repeat (s : pystr) (n : nat) :
  tl (levels (repeat (CStr s) n)) = [].
Proof.
  assert (H : levels (repeat (CStr s) n) = [] \/
              levels (repeat (CStr s) n) = [s]).
  { induction n as [|n IH]; [left; reflexivity|]. right.
    unfold levels in *. cbn [repeat fold_right].
    destruct IH as [-> | ->]; [reflexivity|].
    cbn [insert_level]. rewrite ltb_irrefl, eqb_refl. reflexivity. }
  destruct H as [-> | ->]; reflexivity.
Qed.

(** If the loop ran to its end, no attribute labelled two columns. *)
Lemma normalizar_None_at_most_once (vars : list pystr) :
  forall data d', normalizar_categoricas vars data = (None, d') ->
                  forall c, In c vars -> at_most_once c data.
Proof.
  induction vars as [|col vars IH]; intros data d' H c Hc; [destruct Hc|].
  simpl in H. destruct (contains col data) eqn:Hcon.
  - unfold getitem in H.
    destruct (filter (has_label col) (cols data)) as [|k [|k' ks]] eqn:Ef;
      try discriminate.
    destruct Hc as [<-|Hc].
    + unfold at_most_once. rewrite Ef. simpl. lia.
    + eapply at_most_once_columns.
      * apply columns_setitem_present. exact Hcon.
      * eapply IH; eassumption.
  - destruct Hc as [<-|Hc].
    + unfold at_most_once. rewrite contains_false_filter by assumption.
      simpl. lia.
    + specialize (IH _ _ H c Hc). unfold at_most_once in *.
      unfold setitem_scalar, setitem in IH. rewrite Hcon in IH.
      cbn [cols] in IH. rewrite filter_app, length_app in IH. lia.
Qed.

Lemma at_most_once_normalizado (data : DataFrame) (c : pystr) :
  at_most_once c data -> at_most_once c (normalizado data).
Proof.
  unfold at_most_once, normalizado, normalizado_por. cbn [cols]. intros H.
  rewrite filter_app, length_app.
  rewrite filter_label_map
    by (intros k; destruct (mem (fst k) categorical_vars); reflexivity).
  rewrite length_map.
  destruct (contains c data) eqn:Hc.
  - match goal with
    | |- (_ + length ?x <= 1)%nat => assert (E : x = [])
    end.
    { apply filter_nil.
      intros k Hk. apply in_map_iff in Hk. destruct Hk as (c' & <- & Hc').
      apply filter_In in Hc'. destruct Hc' as [_ Hc'].
      unfold has_label. cbn [fst]. apply eqb_neq. intros <-.
      rewrite Hc in Hc'. discriminate. }
    rewrite E. simpl. lia.
  - rewrite (contains_false_filter _ _ Hc). cbn [length plus].
    assert (Hnd : NoDup categorical_vars).
    { unfold categorical_vars.
      repeat (constructor; [simpl; intuition discriminate|]). constructor. }
    pose proof (NoDup_at_most_once
                  (mkFrame 0 (map (fun c0 => (c0, repeat (CStr OTRO) (nrows data)))
                                  (filter (fun c0 => negb (contains c0 data))
                                          categorical_vars))) c) as Hx.
    unfold at_most_once in Hx. cbn [cols] in Hx. apply Hx.
    unfold columns. cbn [cols]. rewrite map_map. cbn [fst]. rewrite map_id.
    apply NoDup_filter. exact Hnd.
Qed.

(** The normalised frame is a fixed point of the normalisation loop. *)
Lemma normalizado_fixed (data : DataFrame) :
  (forall c, In c categorical_vars -> at_most_once c data) ->
  normalizar_categoricas categorical_vars (normalizado data)
  = (None, normalizado data).
Proof.
  intros Hu.
  assert (Hnd : NoDup categorical_vars).
  { unfold categorical_vars.
    repeat (constructor; [simpl; intuition discriminate|]). constructor. }
  rewrite normalizar_categoricas_spec; auto.
  2:{ intros c Hc. apply at_most_once_normalizado. auto. }
  f_equal. unfold normalizado_por at 1.
  rewrite (filter_nil _ categorical_vars).
  2:{ intros c Hc. rewrite contains_normalizado by assumption. reflexivity. }
  cbn [map]. rewrite app_nil_r.
  replace (nrows (normalizado data)) with (nrows data) by reflexivity.
  transitivity (mkFrame (nrows data) (cols (normalizado data)));
    [|reflexivity].
  f_equal. rewrite <- (map_id (cols (normalizado data))) at 2.
  apply map_ext_in. intros k Hk.
  destruct (mem (fst k) categorical_vars) eqn:Em; [|reflexivity].
  unfold normalizado, normalizado_por in Hk. cbn [cols] in Hk.
  apply in_app_iff in Hk. destruct Hk as [Hk|Hk]; apply in_map_iff in Hk.
  - destruct Hk as (k' & E & _).
    assert (Em' : mem (fst k') categorical_vars = true).
    { destruct (mem (fst k') categorical_vars) eqn:E'; [reflexivity|].
      subst k. congruence. }
    rewrite Em' in E. subst k. cbn [fst snd]. f_equal.
    rewrite map_map. apply map_ext. apply normalizar_celda_idempotent.
  - destruct Hk as (c & <- & _). cbn [fst snd]. f_equal.
    rewrite map_repeat. reflexivity.
Qed.

Lemma cat_not_indicator (c : pystr) :
  In c categorical_vars -> is_indicator_label c = false.
Proof.
  unfold categorical_vars. simpl.
  intros H. repeat (destruct H as [<-|H]; [reflexivity|]). destruct H.
Qed.

(** No column of an encoded frame is labelled with an attribute. *)
Lemma codificado_sin_categoricas (data : DataFrame) (k : column) :
  In k (cols (codificado data)) -> mem (fst k) categorical_vars = false.
Proof.
  unfold codificado. cbn [cols]. rewrite in_app_iff, filter_In.
  intros [[_ H]|H].
  - apply negb_true_iff. exact H.
  - apply indicadores_labels in H.
    destruct (mem (fst k) categorical_vars) eqn:Em; [|reflexivity].
    apply mem_In, cat_not_indicator in Em. congruence.
Qed.

(** The encoded frame is a fixed point of the encoding. *)
Lemma codificado_fixed (data : DataFrame) :
  codificado (codificado data) = codificado data.
Proof.
  set (enc := codificado data).
  assert (Hno : forall k, In k (cols enc) ->
                          mem (fst k) categorical_vars = false)
    by (apply codificado_sin_categoricas).
  unfold codificado at 1. fold enc.
  assert (E1 : filter (fun k : column => negb (mem (fst k) categorical_vars))
                      (cols enc) = cols enc).
  { clearbody enc. induction (cols enc) as [|k l IH]; [reflexivity|].
    cbn [filter]. rewrite (Hno k (or_introl eq_refl)). cbn [negb].
    rewrite IH; [reflexivity|]. intros; apply Hno; right; assumption. }
  assert (E2 : indicadores enc = []).
  { unfold indicadores. apply flat_map_nil. intros k Hk.
    apply in_flat_map in Hk. destruct Hk as (c & Hc & Hk).
    apply filter_In in Hk. destruct Hk as [Hk Hl].
    apply has_label_eq in Hl.
    unfold normalizado, normalizado_por in Hk. cbn [cols] in Hk.
    apply in_app_iff in Hk. destruct Hk as [Hk|Hk]; apply in_map_iff in Hk.
    - destruct Hk as (k' & E & Hk'). exfalso.
      pose proof (Hno k' Hk') as Hm. rewrite Hm in E. subst k'.
      rewrite Hl in Hm. apply mem_not_In in Hm. contradiction.
    - destruct Hk as (c' & <- & _). cbn [fst snd].
      unfold get_dummies_1d. rewrite levels_repeat. reflexivity. }
  rewrite E1, E2, app_nil_r. destruct enc; reflexivity.
Qed.

(** C7. The normalisation-and-encoding pass is idempotent: run again
    on the frame it returned, it returns that frame unchanged; and run
    again on the frame it normalised in place, the normalisation loop
    leaves that frame unchanged. *)
Theorem codificar_idempotente (data enc data' : DataFrame) :
  codificar data = (Ok enc, data') ->
  fst (codificar enc) = Ok enc /\
  normalizar_categoricas categorical_vars data' = (None, data').
Proof.
  intros H.
  assert (Hu : forall c, In c categorical_vars -> at_most_once c data).
  { unfold codificar in H.
    destruct (normalizar_categoricas categorical_vars data) as [[e|] d] eqn:E;
      [discriminate|].
    eapply normalizar_None_at_most_once. exact E. }
  rewrite codificar_spec in H by assumption.
  injection H as <- <-. split.
  - rewrite codificar_spec.
    + cbn [fst]. rewrite codificado_fixed. reflexivity.
    + intros c Hc. unfold at_most_once.
      rewrite filter_nil; [simpl; lia|].
      intros k Hk. apply codificado_sin_categoricas in Hk.
      unfold has_label. apply eqb_neq. intros ->.
      apply mem_not_In in Hk. contradiction.
  - apply normalizado_fixed. assumption.
Qed.
End Teoremas_idempotencia.

(** ** The schema error *)

Lemma getitem_raise (df : DataFrame) (c : pystr) (e : exn) :
  getitem df c = Raise e -> e = KeyError /\ contains c df = false.
Proof.
  unfold getitem.
  destruct (filter (has_label c) (cols df)) as [|k [|k' ks]] eqn:E;
    try discriminate.
  intros H. injection H as <-. split; [reflexivity|].
  destruct (contains c df) eqn:Hc; [|reflexivity].
  apply contains_filter in Hc. congruence.
Qed.

Lemma getitem_list_raise (df : DataFrame) (keys : list pystr) (e : exn) :
  getitem_list df keys = Raise e -> e = KeyError.
Proof.
  induction keys as [|c keys IH]; simpl; [discriminate|].
  destruct (filter (has_label c) (cols df)); [congruence|].
  destruct (getitem_list df keys); [discriminate|].
  cbn [bind]. intros H. apply IH. congruence.
Qed.

Lemma for_present_raise (f : item -> result (list cell)) (vars : list pystr) :
  forall df e, for_present f vars df = Raise e -> exists it, f it = Raise e.
Proof.
  induction vars as [|col vars IH]; intros df e H; simpl in H;
    [discriminate|].
  destruct (contains col df) eqn:Hc; [|eauto].
  destruct (getitem df col) as [it|e'] eqn:Eg.
  - cbn [bind] in H. destruct (f it) as [v|e''] eqn:Ef.
    + cbn [bind] in H. eauto.
    + cbn [bind] in H. injection H as ->. eauto.
  - apply getitem_raise in Eg. destruct Eg as [_ Eg]. congruence.
Qed.

Section Teoremas_target.
Context {lib : Numerics}.

(** The schema error is raised by the target check only. *)
Lemma construir_X_y_ValueError (enc : DataFrame) (c : Z) :
  construir_X_y enc c = Raise ValueError -> contains target_col enc = false.
Proof.
  unfold construir_X_y.
  destruct (convertir_a_numerico (num_vars c) enc) as [enc'|e] eqn:E1.
  - cbn [bind]. apply for_present_columns in E1. destruct E1 as [E1 _].
    rewrite <- (contains_columns target_col _ _ E1).
    destruct (contains target_col enc'); [|reflexivity]. cbn [negb].
    destruct (getitem enc' target_col) as [it|e] eqn:Eg.
    + cbn [bind]. destruct it as [v|ks]; cbn [to_numeric_fillna bind];
        [|discriminate].
      match goal with
      | |- context [getitem_list ?X ?keys] =>
          destruct (getitem_list X keys) as [ks|e] eqn:El
      end; cbn [bind]; [discriminate|].
      apply getitem_list_raise in El. congruence.
    + cbn [bind]. apply getitem_raise in Eg. destruct Eg as [-> _].
      discriminate.
  - cbn [bind]. intros H. injection H as ->.
    apply for_present_raise in E1. destruct E1 as [[v|ks] E1]; discriminate.
Qed.

Lemma normalizar_categoricas_raise (vars : list pystr) :
  forall data e d, normalizar_categoricas vars data = (Some e, d) ->
                   e <> ValueError.
Proof.
  induction vars as [|col vars IH]; intros data e d H; simpl in H;
    [discriminate|].
  destruct (contains col data); [|eauto].
  destruct (getitem data col) as [[v|ks]|e'] eqn:Eg; [eauto| |].
  - injection H as <- _. discriminate.
  - injection H as <- _. apply getitem_raise in Eg. destruct Eg as [-> _].
    discriminate.
Qed.

(** What the pass returns, whenever it returns. *)
Lemma codificar_Ok (data enc data' : DataFrame) :
  codificar data = (Ok enc, data') ->
  enc = codificado data /\ data' = normalizado data.
Proof.
  intros H.
  assert (Hu : forall c, In c categorical_vars -> at_most_once c data).
  { unfold codificar in H.
    destruct (normalizar_categoricas categorical_vars data) as [[e|] d] eqn:E;
      [discriminate|].
    eapply normalizar_None_at_most_once. exact E. }
  rewrite codificar_spec in H by assumption.
  injection H as <- <-. auto.
Qed.

Lemma codificar_raise (data data' : DataFrame) (e : exn) :
  codificar data = (Raise e, data') -> e <> ValueError.
Proof.
  unfold codificar.
  destruct (normalizar_categoricas categorical_vars data) as [[e'|] d] eqn:E.
  - intros H. injection H as <- _.
    eapply normalizar_categoricas_raise. exact E.
  - unfold get_dummies.
    destruct (getitem_list d categorical_vars) as [ks|e'] eqn:El;
      cbn [bind]; [discriminate|].
    intros H. injection H as <- _. apply getitem_list_raise in El.
    subst e'. discriminate.
Qed.

(** C5. Training-mode preprocessing raises the schema error only when
    OFERTAS is not a column of the input, whatever the input.  On a raw
    record set (distinct column labels) it raises it exactly then, and
    when OFERTAS is a column the call returns [(X, y, feature_names)] with
    [y] the OFERTAS column coerced to numbers: every value that does not
    read as a number, and every missing one, is 0.0. *)
Theorem preprocesar_datos_target (data : DataFrame) (dia_remate : Z) :
  (fst (preprocesar_datos data dia_remate) = Raise ValueError ->
   ~ In (py "OFERTAS") (columns data)) /\
  (NoDup (columns data) ->
   (~ In (py "OFERTAS") (columns data) ->
    fst (preprocesar_datos data dia_remate) = Raise ValueError) /\
   (In (py "OFERTAS") (columns data) ->
    exists X ofertas,
      In (py "OFERTAS", ofertas) (cols data) /\
      fst (preprocesar_datos data dia_remate)
      = Ok (X, map coerce ofertas, columns X) /\
      length (map coerce ofertas) = length ofertas /\
      forall i, nth i (map coerce ofertas) (CNum (Fin 0))
                = match to_numeric (nth i ofertas CNull) with
                  | NaN => CNum (Fin 0)
                  | x => CNum x
                  end)).
Proof.
  assert (Hc : contains target_col (codificado data)
               = contains target_col data)
    by (apply contains_codificado; reflexivity).
  split.
  - unfold preprocesar_datos.
    destruct (codificar data) as [[enc|e] data'] eqn:E; cbn [fst].
    + apply codificar_Ok in E. destruct E as [-> _].
      intros H. apply construir_X_y_ValueError in H.
      rewrite Hc in H. intros Hin. apply contains_In in Hin.
      change (py "OFERTAS") with target_col in Hin. congruence.
    + intros H. injection H as ->. apply codificar_raise in E.
      congruence.
  - intros Hnd. unfold preprocesar_datos.
    rewrite codificar_NoDup by assumption. cbn [fst]. split.
    + intros Hn. apply construir_X_y_sin_target.
      * apply num_vars_at_most_once; assumption.
      * rewrite Hc. apply mem_not_In. exact Hn.
    + intros Hin.
      destruct (construir_X_y_ok (codificado data) dia_remate)
        as (X & k0 & HX & Hk0 & _).
      * apply num_vars_at_most_once; assumption.
      * apply at_most_once_codificado; auto.
      * rewrite Hc. apply contains_In. exact Hin.
      * rewrite HX. exists X, (snd k0).
        rewrite filter_codificado in Hk0 by reflexivity.
        assert (Hk : In k0 (filter (has_label target_col) (cols data)))
          by (rewrite Hk0; left; reflexivity).
        apply filter_In in Hk. destruct Hk as [Hk Hl].
        apply has_label_eq in Hl.
        split; [|split; [reflexivity|split; [apply length_map|]]].
        -- change (py "OFERTAS") with target_col. rewrite <- Hl.
           destruct k0; exact Hk.
        -- intros i.
           change (CNum (Fin 0)) with (coerce CNull) at 1.
           rewrite map_nth. unfold coerce.
           destruct (to_numeric (nth i (snd k0) CNull)); reflexivity.
Qed.

(** On a raw record set the loop that should force the presence of the
    candidate columns adds none: a candidate is among the returned
    feature names only if the raw data had it. *)
Lemma candidatas_solo_las_presentes
      (data : DataFrame) (dia_remate : Z) X y names :
  NoDup (columns data) ->
  fst (preprocesar_datos data dia_remate) = Ok (X, y, names) ->
  forall l, In l names -> In l (num_vars dia_remate) -> In l (columns data).
Proof.
  intros Hnd H l Hl Hcand.
  unfold preprocesar_datos in H.
  rewrite codificar_NoDup in H by assumption. cbn [fst] in H.
  assert (Ht : In (py "OFERTAS") (columns data)).
  { destruct (contains target_col data) eqn:E; [apply contains_In; exact E|].
    rewrite construir_X_y_sin_target in H; [discriminate| |].
    - apply num_vars_at_most_once; assumption.
    - rewrite contains_codificado by reflexivity. exact E. }
  destruct (construir_X_y_ok (codificado data) dia_remate)
    as (X' & k0 & HX & _ & _ & Hsub & _).
  - apply num_vars_at_most_once; assumption.
  - apply at_most_once_codificado; auto.
  - rewrite contains_codificado by reflexivity. apply contains_In. exact Ht.
  - rewrite HX in H. injection H as <- _ <-.
    unfold columns in Hl. apply in_map_iff in Hl.
    destruct Hl as (k & <- & Hk). apply Hsub in Hk. destruct Hk as [Hk _].
    apply (in_map fst) in Hk. fold (columns (numerico (num_vars dia_remate)
                                                      (codificado data))) in Hk.
    rewrite columns_numerico in Hk. apply contains_In in Hk.
    rewrite contains_codificado in Hk.
    + apply contains_In. exact Hk.
    + apply num_vars_not_reserved in Hcand. tauto.
    + eapply num_vars_not_indicator. exact Hcand.
Qed.
End Teoremas_target.

(** ** Row selection and duplicates *)













(** ** Upload preparation *)
















Section Tipificacion.
Context {lib : Numerics}.







End Tipificacion.


Section Tipificado.
Context {lib : Numerics}.

End Tipificado.








Section Teoremas_subida.
Context {lib : Numerics}.





End Teoremas_subida.

(** ** The pipeline on the example record sets *)

Lemma unique_labels_NoDup (l : list pystr) :
  unique_labels l = true -> NoDup l.
Proof.
  induction l as [|c l IH]; simpl; intros H; constructor;
    apply andb_true_iff in H; destruct H as [H1 H2].
  - apply mem_not_In, negb_true_iff. exact H1.
  - apply IH. exact H2.
Qed.

(** C2. Training-mode preprocessing on two lots that carry mileage and
    brand but neither the year nor any windowed series: the feature-name
    list returned holds only the candidate column the raw data supplied
    and the brand indicator.  The candidates [ANIO] and MI15, absent from the
    encoded frame, are not synthesized, whatever the numeric library. *)
Theorem candidatas_ausentes_no_sintetizadas (lib : Numerics) :
  let nombres := [py "KILOMETRAJE"; py "MARCA_KIA"] in
  (exists X y,
      fst (preprocesar_datos Ejemplos.lotes (-2)) = Ok (X, y, nombres)) /\
  In ANIO (num_vars (-2)) /\ ~ In ANIO nombres /\
  In (py "MI15") (num_vars (-2)) /\ ~ In (py "MI15") nombres.
Proof.
  cbv zeta. split; [|split; [|split; [|split]]].
  - eexists. eexists. vm_compute. reflexivity.
  - left. reflexivity.
  - intros [H|[H|[]]]; discriminate.
  - apply mem_In. vm_compute. reflexivity.
  - intros [H|[H|[]]]; discriminate.
Qed.

(** C3. Training-mode preprocessing on a record set whose raw column
    TIPO_B collides with the indicator generated for TIPO = "B": the
    feature-name list returned repeats TIPO_B, whatever the numeric
    library; the inference-mode preprocessor, which drops repeated labels,
    returns a single TIPO_B column for the same record set. *)
Theorem columnas_duplicadas_en_entrenamiento (lib : Numerics) :
  let nombres := [py "TIPO_B"; py "TIPO_B"; py "TIPO_B"; py "TIPO_B"] in
  (exists X y,
      fst (preprocesar_datos Ejemplos.lotes_con_colision (-2))
      = Ok (X, y, nombres)) /\
  ~ NoDup nombres /\
  fst (preprocesar_datos_inferencia Ejemplos.lotes_con_colision
                                    [py "TIPO_B"] (-2))
  = Ok (mkFrame 2 [(py "TIPO_B", [Ejemplos.num 7; Ejemplos.num 8])]).
Proof.
  cbv zeta. split; [|split].
  - eexists. eexists. vm_compute. reflexivity.
  - intros H. inversion H as [|? ? Hn _]; subst. apply Hn. left. reflexivity.
  - vm_compute. reflexivity.
Qed.

(** The examples below run on whole-number data. *)
#[local] Existing Instance Enteros.numerics.

Lemma alineacion_con_entrenamiento_witness :
  let S1 := [py "KILOMETRAJE"; py "MARCA_KIA"; py "MARCA_TOYOTA"] in
  NoDup (columns Ejemplos.lotes_sin_target) /\
  exists X,
    fst (@preprocesar_datos_inferencia Enteros.numerics
           Ejemplos.lotes_sin_target S1 (-2)) = Ok X /\
    columns X = S1.
Proof.
  cbv zeta.
  assert (Hnd : NoDup (columns Ejemplos.lotes_sin_target))
    by (apply unique_labels_NoDup; reflexivity).
  split; [exact Hnd|].
  destruct (proj2 (@alineacion_con_entrenamiento Enteros.numerics
                     Ejemplos.lotes_sin_target
                     [py "KILOMETRAJE"; py "MARCA_KIA"; py "MARCA_TOYOTA"]
                     (-2)) Hnd) as (X & H1 & _ & H3 & _).
  exists X. split; assumption.
Defined.

Lemma preprocesar_datos_target_witness :
  (NoDup (columns Ejemplos.lotes) /\
   In (py "OFERTAS") (columns Ejemplos.lotes) /\
   exists X ofertas,
     fst (preprocesar_datos Ejemplos.lotes (-2))
     = Ok (X, map coerce ofertas, columns X)) /\
  (NoDup (columns Ejemplos.lotes_sin_target) /\
   ~ In (py "OFERTAS") (columns Ejemplos.lotes_sin_target) /\
   fst (preprocesar_datos Ejemplos.lotes_sin_target (-2)) = Raise ValueError).
Proof.
  assert (Hnd : NoDup (columns Ejemplos.lotes))
    by (apply unique_labels_NoDup; reflexivity).
  assert (Hin : In (py "OFERTAS") (columns Ejemplos.lotes))
    by (apply mem_In; reflexivity).
  assert (Hnd' : NoDup (columns Ejemplos.lotes_sin_target))
    by (apply unique_labels_NoDup; reflexivity).
  assert (Hraise : fst (preprocesar_datos Ejemplos.lotes_sin_target (-2))
                   = Raise ValueError)
    by (vm_compute; reflexivity).
  split.
  - split; [exact Hnd|]. split; [exact Hin|].
    destruct (proj2 (proj2 (@preprocesar_datos_target Enteros.numerics
                              Ejemplos.lotes (-2)) Hnd) Hin)
      as (X & ofertas & _ & H & _).
    exists X, ofertas. exact H.
  - split; [exact Hnd'|]. split; [|exact Hraise].
    exact (proj1 (@preprocesar_datos_target Enteros.numerics
                    Ejemplos.lotes_sin_target (-2)) Hraise).
Defined.

Lemma coercion_numerica_witness :
  NoDup (columns Ejemplos.lotes_sin_target) /\
  exists X,
    fst (@preprocesar_datos_inferencia Enteros.numerics
           Ejemplos.lotes_sin_target [py "KILOMETRAJE"] (-2)) = Ok X /\
    In (py "KILOMETRAJE", [Ejemplos.num 1000; Ejemplos.num 0]) (cols X).
Proof.
  assert (Hnd : NoDup (columns Ejemplos.lotes_sin_target))
    by (apply unique_labels_NoDup; reflexivity).
  split; [exact Hnd|].
  destruct (proj2 (proj2 (@coercion_numerica Enteros.numerics
                            Ejemplos.lotes_sin_target (-2)
                            [py "KILOMETRAJE"])) Hnd) as [_ H].
  assert (Hcol : In (py "KILOMETRAJE") (num_vars (-2)))
    by (apply mem_In; reflexivity).
  assert (Hraw : In (py "KILOMETRAJE", [Ejemplos.txt "1000"; Ejemplos.txt ""])
                    (cols Ejemplos.lotes_sin_target))
    by (simpl; tauto).
  apply (proj2 (H _ _ Hcol Hraw)).
  left. reflexivity.
Defined.

Lemma codificar_idempotente_witness :
  exists enc data',
    @codificar Enteros.numerics Ejemplos.lotes = (Ok enc, data') /\
    fst (@codificar Enteros.numerics enc) = Ok enc.
Proof.
  exists (@codificado Enteros.numerics Ejemplos.lotes),
         (@normalizado Enteros.numerics Ejemplos.lotes).
  assert (H : @codificar Enteros.numerics Ejemplos.lotes
              = (Ok (@codificado Enteros.numerics Ejemplos.lotes),
                 @normalizado Enteros.numerics Ejemplos.lotes))
    by (vm_compute; reflexivity).
  split; [exact H|].
  exact (proj1 (@codificar_idempotente Enteros.numerics _ _ _ H)).
Defined.

Lemma columnas_features_sin_target_ni_ids_witness :
  exists X y names,
    fst (@preprocesar_datos Enteros.numerics Ejemplos.lotes (-2))
    = Ok (X, y, names) /\
    ~ In (py "OFERTAS") names /\ ~ In (py "REMID") names.
Proof.
  eexists. eexists. eexists.
  assert (H : fst (@preprocesar_datos Enteros.numerics Ejemplos.lotes (-2))
              = Ok (mkFrame 2 [(py "KILOMETRAJE",
                                [Ejemplos.num 1000; Ejemplos.num 2000]);
                               (py "MARCA_KIA", [CBool false; CBool true])],
                    [Ejemplos.num 2; Ejemplos.num 0],
                    [py "KILOMETRAJE"; py "MARCA_KIA"]))
    by (vm_compute; reflexivity).
  split; [exact H|].
  destruct (@columnas_features_sin_target_ni_ids Enteros.numerics
              _ _ _ _ _ H) as (_ & H1 & H2 & _).
  split; assumption.
Defined.

Lemma mutacion_del_frame_de_entrada_witness :
  NoDup (columns Ejemplos.lotes_sin_target) /\
  data_raw_final
    (@pipeline_inferencia_completo Enteros.numerics
       (Some (Ejemplos.uno_por_fila, [py "KILOMETRAJE"; py "MARCA_KIA"]))
       Ejemplos.lotes_sin_target (-2) true false)
  <> Ejemplos.lotes_sin_target.
Proof.
  assert (Hnd : NoDup (columns Ejemplos.lotes_sin_target))
    by (apply unique_labels_NoDup; reflexivity).
  split; [exact Hnd|].
  destruct (proj2 (proj2 (@mutacion_del_frame_de_entrada Enteros.numerics
                            Ejemplos.lotes_sin_target (-2)
                            [py "KILOMETRAJE"; py "MARCA_KIA"]
                            Ejemplos.uno_por_fila true false)) Hnd)
    as (_ & _ & _ & _ & _ & H).
  apply H. apply mem_not_In. reflexivity.
Defined.

